(** * smithy-mcp: the tool handlers of the documentation server

    A shallow embedding of the TypeScript handlers
    [handleSearchTool], [handleReadTool], [handleListTool]
    (packages/functions/src/mcp-server/tools), of [searchKnowledgeBase]
    (bedrock-client.ts) and of the Lambda [handler] that dispatches
    [tools/call] requests, followed by the properties the specification
    states about them.

    Conventions.
    - A JavaScript string is a [string], its code units being the
      characters (one byte each); a template literal is a chain of [+:+].
    - A JavaScript number is an IEEE-754 double, [spec_float] of the
      standard library.
    - An [async] function is a program of type [Prog A]: a tree of calls to
      the AWS clients, each continued with the outcome of the call
      (a rejection or a value), ending in [Ret] or in [Throw].  A
      [try]/[catch] block is [try_catch]. *)

From Stdlib Require Import ZArith Strings.String Strings.Ascii.
From Stdlib Require Import Numbers.DecimalString Floats.SpecFloat.
From stdpp Require Import base option list strings gmap sorting.

Local Open Scope string_scope.

(** ** Strings *)

Module Str.

Definition chr (n : nat) : string := String (ascii_of_nat n) EmptyString.

(** The line feed written [\n] in the sources, and the double quote. *)
Definition nl : string := chr 10.
Definition dq : string := chr 34.
Definition slash : ascii := ascii_of_nat 47.

(** [s.split(sep)] for a one-character separator: never empty, the empty
    string splits into one empty segment. *)
Fixpoint split (sep : ascii) (s : string) : list string :=
  match s with
  | EmptyString => [EmptyString]
  | String c s' =>
      if Ascii.eqb c sep then EmptyString :: split sep s'
      else match split sep s' with
           | [] => [String c EmptyString]
           | p :: ps => String c p :: ps
           end
  end.

(** [parts.join(sep)]. *)
Fixpoint join (sep : string) (parts : list string) : string :=
  match parts with
  | [] => EmptyString
  | [p] => p
  | p :: ps => p +:+ sep +:+ join sep ps
  end.

(** [s.replace(/^\/+/, '')]: the longest run of slashes at the start is
    removed. *)
Fixpoint strip_leading_slashes (s : string) : string :=
  match s with
  | String c s' => if Ascii.eqb c slash then strip_leading_slashes s' else s
  | EmptyString => EmptyString
  end.

(** [s.startsWith(p)] and what is left of [s] after [p]. *)
Fixpoint strip_prefix (p s : string) : option string :=
  match p, s with
  | EmptyString, _ => Some s
  | String a p', String b s' =>
      if Ascii.eqb a b then strip_prefix p' s' else None
  | String _ _, EmptyString => None
  end.

(** [s.replace(pat, '')] for a string pattern: the first occurrence of
    [pat], wherever it is, is removed; without an occurrence [s] is
    returned. *)
Fixpoint remove_first (pat s : string) : string :=
  match strip_prefix pat s with
  | Some rest => rest
  | None =>
      match s with
      | EmptyString => EmptyString
      | String c s' => String c (remove_first pat s')
      end
  end.

(** Decimal digits of a natural number, as [String(n)] prints an index
    or a length. *)
Definition of_nat (n : nat) : string :=
  NilZero.string_of_uint (Nat.to_uint n).

Definition of_N (n : N) : string :=
  NilZero.string_of_uint (N.to_uint n).

(** ToBoolean on a string: only the empty string is falsy. *)
Definition truthy (s : string) : bool :=
  match s with EmptyString => false | String _ _ => true end.

(** [s || d] on strings. *)
Definition or_else (s d : string) : string := if truthy s then s else d.

End Str.

(** ** Numbers *)

Module Num.

Definition number : Type := spec_float.

(** The doubles the sources name, in canonical form (53-bit mantissa). *)
Definition zero : number := S754_zero false.
Definition one : number := S754_finite false 4503599627370496 (-52).
Definition five : number := S754_finite false 5629499534213120 (-50).
Definition ten : number := S754_finite false 5629499534213120 (-49).
Definition pos_infinity : number := S754_infinity false.

(** Well-formed doubles. *)
Definition valid (x : number) : bool := valid_binary 53 1024 x.

Definition is_nan (x : number) : bool :=
  match x with S754_nan => true | _ => false end.
Definition is_neg_zero (x : number) : bool :=
  match x with S754_zero true => true | _ => false end.
Definition is_pos_zero (x : number) : bool :=
  match x with S754_zero false => true | _ => false end.
Definition is_zero (x : number) : bool :=
  match x with S754_zero _ => true | _ => false end.

(** ToBoolean on a number: [+0], [-0] and [NaN] are falsy. *)
Definition truthy (x : number) : bool :=
  match x with
  | S754_zero _ | S754_nan => false
  | _ => true
  end.

(** [x || d] where [x] may be [undefined]. *)
Definition or_else (x : option number) (d : number) : number :=
  match x with
  | Some v => if truthy v then v else d
  | None => d
  end.

(** One step of the loop of [Math.min]: [NaN] is absorbing, [-0] is
    below [+0], otherwise the smaller value is kept. *)
Definition min_step (lowest v : number) : number :=
  if is_nan lowest || is_nan v then S754_nan
  else if is_neg_zero v && is_pos_zero lowest then v
  else if SFltb v lowest then v
  else lowest.

(** [Math.min(a, b)]: the loop starts from [+Infinity]. *)
Definition Math_min (a b : number) : number :=
  min_step (min_step pos_infinity a) b.

End Num.

Export Num.

(** ** The JavaScript engine

    What the sources leave to the engine and this development does not
    fix: the text of [Number::toString] for a number of magnitude at least
    [10^21] (the one case in which [toFixed] prints it), and the messages
    of the [TypeError]s the engine raises. *)

Inductive TypeErrorSite :=
| NotAFunction          (* calling a property that is not a function *)
| DestructureUndefined  (* destructuring [undefined] *)
| DestructureNull       (* destructuring [null] *)
| PropertyOfNull.       (* reading a property of [null] *)

Record Engine := {
  Number_toString : number → string;
  TypeError_message : TypeErrorSite → string
}.

(** [process.env]: the two variables the modules read when loaded. *)
Record ProcessEnv := {
  BUCKET_NAME : string;
  KNOWLEDGE_BASE_ID : string
}.

Record Host := {
  engine : Engine;
  env : ProcessEnv
}.

(** ** [Number.prototype.toFixed] *)

Module Fixed.

(** Is [m * 2^e] at least [10^21]? *)
Definition at_least_1e21 (m : positive) (e : Z) : bool :=
  if (0 <=? e)%Z then (10 ^ 21 <=? Z.pos m * 2 ^ e)%Z
  else (10 ^ 21 * 2 ^ (- e) <=? Z.pos m)%Z.

(** The integer [n] for which [n / 10^f] is closest to [m * 2^e], the
    larger one of two equally close. *)
Definition scaled (m : positive) (e : Z) (f : nat) : Z :=
  if (0 <=? e)%Z then Z.pos m * 2 ^ e * 10 ^ Z.of_nat f
  else (2 * Z.pos m * 10 ^ Z.of_nat f + 2 ^ (- e)) / 2 ^ (1 - e).

Fixpoint zeros (k : nat) : string :=
  match k with O => EmptyString | S k' => String "0" (zeros k') end.

(** The digits of [n] with a point before the last [f] of them, padded
    with zeros on the left to at least [f + 1] digits. *)
Definition digits (n : Z) (f : nat) : string :=
  let m := Str.of_N (Z.to_N n) in
  match f with
  | O => m
  | _ =>
      let m := zeros (S f - String.length m) +:+ m in
      let k := String.length m in
      substring 0 (k - f) m +:+ "." +:+ substring (k - f) f m
  end.

Definition toFixed (eng : Engine) (x : number) (f : nat) : string :=
  match x with
  | S754_nan => "NaN"
  | S754_infinity s => if s then "-Infinity" else "Infinity"
  | S754_zero _ => digits 0 f
  | S754_finite s m e =>
      (if s then "-" else EmptyString) +:+
      (if at_least_1e21 m e
       then Number_toString eng (S754_finite false m e)
       else digits (scaled m e f) f)
  end.

End Fixed.

(** ** Values exchanged with the collaborators *)

(** What a rejected promise carries.  The AWS clients reject with objects,
    never with [null] or [undefined]; of such an object the handlers read
    whether it is an [Error], its [name] and its [message]. *)
Inductive Thrown :=
| ErrorObject (name message : string)
| OtherObject (name : option string).

Definition error_name (e : Thrown) : option string :=
  match e with
  | ErrorObject n _ => Some n
  | OtherObject n => n
  end.

(** [error instanceof Error ? error.message : 'Unknown error'] *)
Definition message_or_unknown (e : Thrown) : string :=
  match e with
  | ErrorObject _ m => m
  | OtherObject _ => "Unknown error"
  end.

Definition Metadata : Type := list (string * string).

(** common/types.ts *)
Module SearchResult.
Record Location := { s3Uri : string; type : string }.
Record t := {
  content : string;
  location : Location;
  score : number;
  metadata : option Metadata
}.
End SearchResult.

Module ContentBlock.
Record t := { type : string; text : string }.
End ContentBlock.

Module MCPToolResponse.
Record t := {
  content : list ContentBlock.t;
  isError : option bool
}.
End MCPToolResponse.

(** The members of the Bedrock [RetrieveCommand] and of its output that
    [searchKnowledgeBase] writes and reads; the optional chains
    [result.content?.text] and [result.location?.s3Location?.uri] are
    flattened to one optional member each. *)
Module RetrieveCommand.
Record Input := {
  knowledgeBaseId : string;
  retrievalQuery_text : string;
  numberOfResults : number
}.
Record Result := {
  content_text : option string;
  location_uri : option string;
  score : option number;
  metadata : option Metadata
}.
Record Output := { retrievalResults : option (list Result) }.
End RetrieveCommand.

(** [Body] is given by the outcome of [transformToString()]. *)
Module GetObjectCommand.
Record Input := { Bucket : string; Key : string }.
Record Output := { Body : option (Thrown + string) }.
End GetObjectCommand.

Module ListObjectsV2Command.
Record Input := { Bucket : string; Prefix : string }.
Record Object := { Key : option string }.
Record Output := { Contents : option (list Object) }.
End ListObjectsV2Command.

(** ** Asynchronous programs *)

Inductive Prog (A : Type) : Type :=
| Ret (a : A)
| Throw (e : Thrown)
| Retrieve (input : RetrieveCommand.Input)
    (k : Thrown + RetrieveCommand.Output → Prog A)
| GetObject (input : GetObjectCommand.Input)
    (k : Thrown + GetObjectCommand.Output → Prog A)
| ListObjectsV2 (input : ListObjectsV2Command.Input)
    (k : Thrown + ListObjectsV2Command.Output → Prog A).

Arguments Ret {A} a.
Arguments Throw {A} e.
Arguments Retrieve {A} input k.
Arguments GetObject {A} input k.
Arguments ListObjectsV2 {A} input k.

(** [await]: a rejection is thrown at the point of the [await]. *)
Definition settle {R : Type} (o : Thrown + R) : Prog R :=
  match o with
  | inl e => Throw e
  | inr r => Ret r
  end.

Fixpoint bind {A B : Type} (p : Prog A) (f : A → Prog B) : Prog B :=
  match p with
  | Ret a => f a
  | Throw e => Throw e
  | Retrieve i k => Retrieve i (λ o, bind (k o) f)
  | GetObject i k => GetObject i (λ o, bind (k o) f)
  | ListObjectsV2 i k => ListObjectsV2 i (λ o, bind (k o) f)
  end.

(** [try { p } catch (error) { h error }] *)
Fixpoint try_catch {A : Type} (p : Prog A) (h : Thrown → Prog A) : Prog A :=
  match p with
  | Ret a => Ret a
  | Throw e => h e
  | Retrieve i k => Retrieve i (λ o, try_catch (k o) h)
  | GetObject i k => GetObject i (λ o, try_catch (k o) h)
  | ListObjectsV2 i k => ListObjectsV2 i (λ o, try_catch (k o) h)
  end.

Notation "'let*' x ':=' p 'in' q" := (bind p (λ x, q))
  (at level 10, x pattern, p at level 100, q at level 200, only parsing).

(** [client.send(new XCommand(input))] *)
Definition bedrock_send (i : RetrieveCommand.Input) : Prog RetrieveCommand.Output :=
  Retrieve i settle.
Definition s3_send_get (i : GetObjectCommand.Input) : Prog GetObjectCommand.Output :=
  GetObject i settle.
Definition s3_send_list (i : ListObjectsV2Command.Input)
  : Prog ListObjectsV2Command.Output :=
  ListObjectsV2 i settle.

(** *** Running a program against given collaborators *)

Record Collaborators := {
  retrieve : RetrieveCommand.Input → Thrown + RetrieveCommand.Output;
  getObject : GetObjectCommand.Input → Thrown + GetObjectCommand.Output;
  listObjectsV2 :
    ListObjectsV2Command.Input → Thrown + ListObjectsV2Command.Output
}.

(** The commands sent, in order. *)
Inductive Sent :=
| SentRetrieve (i : RetrieveCommand.Input)
| SentGetObject (i : GetObjectCommand.Input)
| SentListObjectsV2 (i : ListObjectsV2Command.Input).

(** The outcome of an [async] call: the commands it sent and how its
    promise settled ([inl]: rejected, an exception left the function). *)
Fixpoint run {A : Type} (w : Collaborators) (p : Prog A)
  : list Sent * (Thrown + A) :=
  match p with
  | Ret a => ([], inr a)
  | Throw e => ([], inl e)
  | Retrieve i k =>
      let (sent, r) := run w (k (retrieve w i)) in (SentRetrieve i :: sent, r)
  | GetObject i k =>
      let (sent, r) := run w (k (getObject w i)) in (SentGetObject i :: sent, r)
  | ListObjectsV2 i k =>
      let (sent, r) := run w (k (listObjectsV2 w i)) in
      (SentListObjectsV2 i :: sent, r)
  end.

Definition sent {A : Type} (w : Collaborators) (p : Prog A) : list Sent :=
  (run w p).1.
Definition settled {A : Type} (w : Collaborators) (p : Prog A) : Thrown + A :=
  (run w p).2.

(** [xs.forEach((x, index) => ...)] updating one local variable. *)
Definition forEach {A S : Type} (xs : list A) (body : S → nat → A → S)
  (init : S) : S :=
  foldl (λ s ix, body s ix.1 ix.2) init (zip (seq 0 (length xs)) xs).

(** A response with the one text block [text]. *)
Definition text_block (text : string) : ContentBlock.t :=
  {| ContentBlock.type := "text"; ContentBlock.text := text |}.

(** ** bedrock-client.ts *)

(** The callback of [map]: one retrieval result as a [SearchResult]. *)
Definition to_search_result (result : RetrieveCommand.Result) : SearchResult.t :=
  {| SearchResult.content :=
       default EmptyString (RetrieveCommand.content_text result);
     SearchResult.location :=
       {| SearchResult.s3Uri :=
            default EmptyString (RetrieveCommand.location_uri result);
          SearchResult.type := "S3" |};
     SearchResult.score := Num.or_else (RetrieveCommand.score result) zero;
     SearchResult.metadata := RetrieveCommand.metadata result |}.

Definition searchKnowledgeBase (h : Host) (query : string)
  (maxResults : option number) : Prog (list SearchResult.t) :=
  let maxResults := default five maxResults in
  let command :=
    {| RetrieveCommand.knowledgeBaseId := KNOWLEDGE_BASE_ID (env h);
       RetrieveCommand.retrievalQuery_text := query;
       RetrieveCommand.numberOfResults := maxResults |} in
  let* response := bedrock_send command in
  Ret (map to_search_result
         (default [] (RetrieveCommand.retrievalResults response))).

(** ** tools/search.ts *)

Module SearchArgs.
Record t := { query : string; max_results : option number }.
End SearchArgs.

(** [result.location.s3Uri.split('/').pop() || 'unknown'] *)
Definition fileName (result : SearchResult.t) : string :=
  Str.or_else
    (default EmptyString
       (last (Str.split Str.slash
                (SearchResult.s3Uri (SearchResult.location result)))))
    "unknown".

(** The text one search result adds to the report. *)
Definition result_block (h : Host) (index : nat) (result : SearchResult.t)
  : string :=
  "## Result " +:+ Str.of_nat (index + 1) +:+ " (Score: "
  +:+ Fixed.toFixed (engine h) (SearchResult.score result) 3 +:+ ")" +:+ Str.nl
  +:+ "**Source:** `" +:+ fileName result +:+ "`" +:+ Str.nl +:+ Str.nl
  +:+ SearchResult.content result +:+ Str.nl +:+ Str.nl
  +:+ "---" +:+ Str.nl +:+ Str.nl.

(** The text the report starts with. *)
Definition search_header (query : string) (count : nat) : string :=
  "# Search Results for: " +:+ Str.dq +:+ query +:+ Str.dq +:+ Str.nl +:+ Str.nl
  +:+ "Found " +:+ Str.of_nat count +:+ " relevant section(s):"
  +:+ Str.nl +:+ Str.nl.

(** The limit [handleSearchTool] computes from its arguments. *)
Definition effective_limit (args : SearchArgs.t) : number :=
  Math_min (Num.or_else (SearchArgs.max_results args) five) ten.

Definition handleSearchTool (h : Host) (args : SearchArgs.t)
  : Prog MCPToolResponse.t :=
  try_catch
    (let maxResults := effective_limit args in
     let* results :=
       searchKnowledgeBase h (SearchArgs.query args) (Some maxResults) in
     if Nat.eqb (length results) 0 then
       Ret {| MCPToolResponse.content :=
                [text_block
                   "No relevant documentation found for your query. Try rephrasing or using different keywords."];
              MCPToolResponse.isError := None |}
     else
       let response := search_header (SearchArgs.query args) (length results) in
       let response :=
         forEach results
           (λ response index result, response +:+ result_block h index result)
           response in
       Ret {| MCPToolResponse.content := [text_block response];
              MCPToolResponse.isError := None |})
    (λ error,
       Ret {| MCPToolResponse.content :=
                [text_block
                   ("Error searching documentation: "
                    +:+ message_or_unknown error)];
              MCPToolResponse.isError := Some true |}).

(** ** tools/read.ts *)

Module ReadArgs.
Record t := { file_path : string }.
End ReadArgs.

(** The storage key [handleReadTool] builds from the requested path. *)
Definition cleanPath (file_path : string) : string :=
  Str.strip_leading_slashes file_path.
Definition read_key (file_path : string) : string :=
  "smithy-docs/" +:+ cleanPath file_path.

(** [await response.Body?.transformToString()] *)
Definition body_text (response : GetObjectCommand.Output)
  : Prog (option string) :=
  match GetObjectCommand.Body response with
  | None => Ret None
  | Some o => let* s := settle o in Ret (Some s)
  end.

Definition handleReadTool (h : Host) (args : ReadArgs.t)
  : Prog MCPToolResponse.t :=
  let file_path := ReadArgs.file_path args in
  try_catch
    (let key := read_key file_path in
     let* response :=
       s3_send_get {| GetObjectCommand.Bucket := BUCKET_NAME (env h);
                      GetObjectCommand.Key := key |} in
     let* content := body_text response in
     if negb (Str.truthy (default EmptyString content)) then
       Ret {| MCPToolResponse.content :=
                [text_block
                   ("Document found but content is empty: " +:+ file_path)];
              MCPToolResponse.isError := Some true |}
     else
       Ret {| MCPToolResponse.content :=
                [text_block
                   ("# " +:+ file_path +:+ Str.nl +:+ Str.nl
                    +:+ default EmptyString content)];
              MCPToolResponse.isError := None |})
    (λ error,
       if bool_decide (error_name error = Some "NoSuchKey") then
         Ret {| MCPToolResponse.content :=
                  [text_block
                     ("Document not found: " +:+ file_path +:+ Str.nl +:+ Str.nl
                      +:+ "Tip: Use search_smithy_docs to find available documents.")];
                MCPToolResponse.isError := Some true |}
       else
         Ret {| MCPToolResponse.content :=
                  [text_block
                     ("Error reading document: " +:+ message_or_unknown error)];
                MCPToolResponse.isError := Some true |}).

(** ** tools/list.ts *)

Definition PREFIX : string := "smithy-docs/".

(** The properties an object created by [{}] inherits from
    [Object.prototype]: [fileTree[dir]] is truthy for each of them although
    [fileTree] has no such key of its own, and none of the values has a
    [push] method. *)
Definition Object_prototype_names : list string :=
  [ "constructor"; "hasOwnProperty"; "isPrototypeOf"; "propertyIsEnumerable";
    "toLocaleString"; "toString"; "valueOf"; "__proto__";
    "__defineGetter__"; "__defineSetter__"; "__lookupGetter__";
    "__lookupSetter__" ].

Definition inherited (dir : string) : bool :=
  existsb (String.eqb dir) Object_prototype_names.

Definition TypeError (h : Host) (site : TypeErrorSite) : Thrown :=
  ErrorObject "TypeError" (TypeError_message (engine h) site).

(** The group a relative path is listed under. *)
Definition dir_of (relativePath : string) : string :=
  let parts := Str.split Str.slash relativePath in
  if Nat.eqb (length parts) 1 then "Root"
  else Str.join "/" (removelast parts).

(** The body of the first [forEach]: one listed object is entered into
    [fileTree], or the call of [push] throws. *)
Definition add_file (h : Host) (fileTree : gmap string (list string))
  (file : ListObjectsV2Command.Object) : Thrown + gmap string (list string) :=
  match ListObjectsV2Command.Key file with
  | None => inr fileTree
  | Some key =>
      if negb (Str.truthy key) then inr fileTree
      else
        let relativePath := Str.remove_first PREFIX key in
        let dir := dir_of relativePath in
        match fileTree !! dir with
        | Some files => inr (<[dir := (files ++ [relativePath])%list]> fileTree)
        | None =>
            if inherited dir then inl (TypeError h NotAFunction)
            else inr (<[dir := [relativePath]]> fileTree)
        end
  end.

Fixpoint build_tree (h : Host) (fileTree : gmap string (list string))
  (files : list ListObjectsV2Command.Object)
  : Thrown + gmap string (list string) :=
  match files with
  | [] => inr fileTree
  | file :: rest =>
      match add_file h fileTree file with
      | inl e => inl e
      | inr fileTree' => build_tree h fileTree' rest
      end
  end.

(** [Object.keys(fileTree).sort()]: the keys in the order of their code
    units. *)
Definition sorted_keys (fileTree : gmap string (list string)) : list string :=
  merge_sort String.le (map fst (map_to_list fileTree)).

(** The text one group adds to the listing. *)
Definition group_block (dir : string) (files : list string) : string :=
  foldl (λ result file, result +:+ "- `" +:+ file +:+ "`" +:+ Str.nl)
    ("## " +:+ dir +:+ Str.nl +:+ Str.nl) files
  +:+ Str.nl.

Definition list_header (count : nat) : string :=
  "# Smithy Documentation Files" +:+ Str.nl +:+ Str.nl
  +:+ "Total files: " +:+ Str.of_nat count +:+ Str.nl +:+ Str.nl.

Definition render_tree (count : nat) (fileTree : gmap string (list string))
  : string :=
  foldl (λ result dir, result +:+ group_block dir (fileTree !!! dir))
    (list_header count) (sorted_keys fileTree).

Definition handleListTool (h : Host) : Prog MCPToolResponse.t :=
  try_catch
    (let* response :=
       s3_send_list {| ListObjectsV2Command.Bucket := BUCKET_NAME (env h);
                       ListObjectsV2Command.Prefix := PREFIX |} in
     let files := default [] (ListObjectsV2Command.Contents response) in
     if Nat.eqb (length files) 0 then
       Ret {| MCPToolResponse.content :=
                [text_block
                   "No documentation files found. The knowledge base may not be populated yet."];
              MCPToolResponse.isError := None |}
     else
       let* fileTree := settle (build_tree h ∅ files) in
       let result := render_tree (length files) fileTree in
       Ret {| MCPToolResponse.content := [text_block result];
              MCPToolResponse.isError := None |})
    (λ error,
       Ret {| MCPToolResponse.content :=
                [text_block
                   ("Error listing topics: " +:+ message_or_unknown error)];
              MCPToolResponse.isError := Some true |}).

(** ** JSON.stringify

    The values the Lambda handler serialises are object literals of
    strings, booleans, small integers, arrays and objects. *)

#[local] Unset Elimination Schemes.
Inductive json :=
| JBool (b : bool)
| JNumber (n : N)
| JString (s : string)
| JArray (items : list json)
| JObject (members : list (string * json)).
#[local] Set Elimination Schemes.

Module Json.

Definition hex_digit (n : nat) : string :=
  substring n 1 "0123456789abcdef".

(** QuoteJSONString, one code unit. *)
Definition quote_char (c : ascii) : string :=
  let n := nat_of_ascii c in
  if Nat.eqb n 8 then "\b"
  else if Nat.eqb n 9 then "\t"
  else if Nat.eqb n 10 then "\n"
  else if Nat.eqb n 12 then "\f"
  else if Nat.eqb n 13 then "\r"
  else if Nat.eqb n 34 then "\" +:+ Str.dq
  else if Nat.eqb n 92 then "\\"
  else if Nat.ltb n 32 then
    "\u00" +:+ hex_digit (n / 16) +:+ hex_digit (n mod 16)
  else String c EmptyString.

Fixpoint quote_chars (s : string) : string :=
  match s with
  | EmptyString => EmptyString
  | String c s' => quote_char c +:+ quote_chars s'
  end.

Definition quote (s : string) : string :=
  Str.dq +:+ quote_chars s +:+ Str.dq.

Fixpoint stringify (v : json) : string :=
  match v with
  | JBool b => if b then "true" else "false"
  | JNumber n => Str.of_N n
  | JString s => quote s
  | JArray items => "[" +:+ Str.join "," (map stringify items) +:+ "]"
  | JObject members =>
      "{" +:+
      Str.join ","
        (map (λ member,
                match member with
                | (key, value) => quote key +:+ ":" +:+ stringify value
                end)
           members)
      +:+ "}"
  end.

End Json.

(** The object [JSON.stringify] sees for a tool response: [isError] is a
    member only when it is defined. *)
Definition json_of_block (b : ContentBlock.t) : json :=
  JObject [("type", JString (ContentBlock.type b));
           ("text", JString (ContentBlock.text b))].

Definition json_of_response (r : MCPToolResponse.t) : json :=
  JObject
    (("content", JArray (map json_of_block (MCPToolResponse.content r)))
     :: match MCPToolResponse.isError r with
        | Some b => [("isError", JBool b)]
        | None => []
        end).

(** The tool definitions exported by the three modules. *)
Definition searchToolDefinition : json :=
  JObject
    [("name", JString "search_smithy_docs");
     ("description",
       JString "Search the Smithy CLI documentation using semantic search. Returns relevant documentation snippets with their source locations.");
     ("inputSchema",
       JObject
         [("type", JString "object");
          ("properties",
            JObject
              [("query",
                 JObject
                   [("type", JString "string");
                    ("description",
                      JString "The search query. Can be a question or keywords.")]);
               ("max_results",
                 JObject
                   [("type", JString "number");
                    ("description",
                      JString "Maximum number of results to return (1-10)");
                    ("default", JNumber 5);
                    ("minimum", JNumber 1);
                    ("maximum", JNumber 10)])]);
          ("required", JArray [JString "query"])])].

Definition readToolDefinition : json :=
  JObject
    [("name", JString "read_smithy_doc");
     ("description",
       JString "Read the full content of a specific Smithy documentation file. Use this after searching to get the complete context of a documentation page.");
     ("inputSchema",
       JObject
         [("type", JString "object");
          ("properties",
            JObject
              [("file_path",
                 JObject
                   [("type", JString "string");
                    ("description",
                      JString
                        ("The relative path to the documentation file (e.g., "
                         +:+ Str.dq +:+ "quickstart.md" +:+ Str.dq +:+ " or "
                         +:+ Str.dq +:+ "guides/model-basics.md" +:+ Str.dq
                         +:+ ")"))])]);
          ("required", JArray [JString "file_path"])])].

Definition listToolDefinition : json :=
  JObject
    [("name", JString "list_smithy_topics");
     ("description",
       JString "List all available Smithy documentation topics and files. Returns a structured view of the documentation hierarchy.");
     ("inputSchema",
       JObject
         [("type", JString "object");
          ("properties", JObject []);
          ("required", JArray [])])].

(** ** The Lambda handler (mcp-server/index.ts of the implementation guide)

    The request is the value [JSON.parse(event.body || '{}')] returns, with
    the members the handler reads: [method], and [params] with its [name]
    and [arguments].  The argument bundle is untyped in the source and is
    handed as it is to the handler chosen by [name]; here it has the
    members the handlers read, with the types their signatures declare. *)

Module ToolCall.
Record Arguments := {
  query : string;
  max_results : option number;
  file_path : string
}.
Record t := { name : string; arguments : Arguments }.
End ToolCall.

Module McpRequest.
Record t := { method : option string; params : option ToolCall.t }.
End McpRequest.

Module LambdaResponse.
Record t := {
  statusCode : nat;
  headers : option (list (string * string));
  body : string
}.
End LambdaResponse.

Definition search_args (args : ToolCall.Arguments) : SearchArgs.t :=
  {| SearchArgs.query := ToolCall.query args;
     SearchArgs.max_results := ToolCall.max_results args |}.

Definition read_args (args : ToolCall.Arguments) : ReadArgs.t :=
  {| ReadArgs.file_path := ToolCall.file_path args |}.

Definition json_headers : list (string * string) :=
  [("Content-Type", "application/json"); ("Access-Control-Allow-Origin", "*")].

Definition ok_response (value : json) : LambdaResponse.t :=
  {| LambdaResponse.statusCode := 200;
     LambdaResponse.headers := Some json_headers;
     LambdaResponse.body := Json.stringify value |}.

Definition error_response (message : string) : LambdaResponse.t :=
  {| LambdaResponse.statusCode := 400;
     LambdaResponse.headers := None;
     LambdaResponse.body :=
       Json.stringify (JObject [("error", JString message)]) |}.

(** The three registered tool identifiers. *)
Definition registered : list string :=
  ["search_smithy_docs"; "read_smithy_doc"; "list_smithy_topics"].

Definition handler (h : Host) (mcpRequest : McpRequest.t)
  : Prog LambdaResponse.t :=
  let method := McpRequest.method mcpRequest in
  if bool_decide (method = Some "tools/list") then
    Ret (ok_response
           (JObject
              [("tools",
                 JArray [searchToolDefinition; readToolDefinition;
                         listToolDefinition])]))
  else if bool_decide (method = Some "tools/call") then
    match McpRequest.params mcpRequest with
    | None => Throw (TypeError h DestructureUndefined)
    | Some params =>
        let name := ToolCall.name params in
        let args := ToolCall.arguments params in
        if String.eqb name "search_smithy_docs" then
          let* result := handleSearchTool h (search_args args) in
          Ret (ok_response (json_of_response result))
        else if String.eqb name "read_smithy_doc" then
          let* result := handleReadTool h (read_args args) in
          Ret (ok_response (json_of_response result))
        else if String.eqb name "list_smithy_topics" then
          let* result := handleListTool h in
          Ret (ok_response (json_of_response result))
        else Ret (error_response ("Unknown tool: " +:+ name))
    end
  else if bool_decide (method = Some "initialize") then
    Ret (ok_response
           (JObject
              [("protocolVersion", JString "2024-11-05");
               ("capabilities", JObject [("tools", JObject [])]);
               ("serverInfo",
                 JObject
                   [("name", JString "smithy-docs-mcp-server");
                    ("version", JString "1.0.0")])]))
  else Ret (error_response "Invalid request").

(** What [JSON.parse(event.body || '{}')] returns, as the handler reads
    it.  For the body [null] it is [null], and reading [mcpRequest.method]
    throws.  Any other value is read member by member: a number, a string,
    a boolean or an array has no [method] and stands as the object without
    members.  A [params] that is [null] is told from a missing one: it is
    read only by the destructuring of a [tools/call], which throws for
    both, with different messages. *)
Inductive Parsed :=
| ParsedNull
| ParsedObject (mcpRequest : McpRequest.t)
| ParsedNullParams (method : option string).

(** The handler from the parsed body on. *)
Definition handler_on (h : Host) (parsed : Parsed) : Prog LambdaResponse.t :=
  match parsed with
  | ParsedNull => Throw (TypeError h PropertyOfNull)
  | ParsedObject mcpRequest => handler h mcpRequest
  | ParsedNullParams method =>
      if bool_decide (method = Some "tools/call")
      then Throw (TypeError h DestructureNull)
      else handler h {| McpRequest.method := method; McpRequest.params := None |}
  end.

(** ** mcp-server/index.ts: the tools registered with the MCP server

    The three callbacks given to [server.registerTool].  Each receives its
    arguments as the input schema parsed them: [max_results] is a number
    (the schema's default standing for an absent one).  None of them has a
    [try]/[catch]. *)

(** The text one search result adds to the report of the registered tool. *)
Definition registered_result_block (h : Host) (i : nat) (result : SearchResult.t)
  : string :=
  "## Result " +:+ Str.of_nat (i + 1) +:+ " ("
  +:+ Fixed.toFixed (engine h) (SearchResult.score result) 3 +:+ ")" +:+ Str.nl
  +:+ "**Source:** " +:+ fileName result +:+ Str.nl +:+ Str.nl
  +:+ SearchResult.content result +:+ Str.nl +:+ Str.nl
  +:+ "---" +:+ Str.nl +:+ Str.nl.

Definition registered_search (h : Host) (query : string) (max_results : number)
  : Prog MCPToolResponse.t :=
  let* results := searchKnowledgeBase h query (Some max_results) in
  if Nat.eqb (length results) 0 then
    Ret {| MCPToolResponse.content :=
             [text_block "No relevant documentation found"];
           MCPToolResponse.isError := None |}
  else
    let response :=
      "# Search Results: " +:+ Str.dq +:+ query +:+ Str.dq +:+ Str.nl +:+ Str.nl in
    let response :=
      forEach results
        (λ response i result, response +:+ registered_result_block h i result)
        response in
    Ret {| MCPToolResponse.content := [text_block response];
           MCPToolResponse.isError := None |}.

(** [`${content}`] for a content that may be [undefined]. *)
Definition template_of (content : option string) : string :=
  default "undefined" content.

Definition registered_read (h : Host) (file_path : string)
  : Prog MCPToolResponse.t :=
  let key := "smithy-docs/" +:+ Str.strip_leading_slashes file_path in
  let* response :=
    s3_send_get {| GetObjectCommand.Bucket := BUCKET_NAME (env h);
                   GetObjectCommand.Key := key |} in
  let* content := body_text response in
  Ret {| MCPToolResponse.content :=
           [text_block
              ("# " +:+ file_path +:+ Str.nl +:+ Str.nl +:+ template_of content)];
         MCPToolResponse.isError := None |}.

(** [.filter(Boolean)] on strings that may be [undefined]. *)
Definition filter_Boolean (xs : list (option string)) : list string :=
  omap (λ x,
          match x with
          | Some s => if Str.truthy s then Some s else None
          | None => None
          end)
    xs.

(** [(response.Contents || []).map(f => f.Key?.replace('smithy-docs/', '')).filter(Boolean)] *)
Definition registered_files (response : ListObjectsV2Command.Output)
  : list string :=
  filter_Boolean
    (map (λ f, option_map (Str.remove_first "smithy-docs/")
                 (ListObjectsV2Command.Key f))
       (default [] (ListObjectsV2Command.Contents response))).

Definition registered_list (h : Host) : Prog MCPToolResponse.t :=
  let* response :=
    s3_send_list {| ListObjectsV2Command.Bucket := BUCKET_NAME (env h);
                    ListObjectsV2Command.Prefix := "smithy-docs/" |} in
  let files := registered_files response in
  let result :=
    "# Smithy Documentation" +:+ Str.nl +:+ Str.nl
    +:+ "Total: " +:+ Str.of_nat (length files) +:+ " files"
    +:+ Str.nl +:+ Str.nl in
  let result := foldl (λ result f, result +:+ "- " +:+ f +:+ Str.nl) result files in
  Ret {| MCPToolResponse.content := [text_block result];
         MCPToolResponse.isError := None |}.

(** ** ingestion/src/upload-s3.ts *)

Module MarkdownFile.
Record t := { path : string; content : string; relativePath : string }.
End MarkdownFile.

Module PutObjectCommand.
Record Input := {
  Bucket : string;
  Key : string;
  Body : string;
  ContentType : string;
  Metadata : list (string * string)
}.
End PutObjectCommand.

(** The prefix [main] of the ingestion script uploads under. *)
Definition DOCS_PREFIX : string := "smithy-docs/".

(** The command the callback of [files.map] sends for one file.  Every
    callback runs up to its [await] when [map] calls it, so [uploadToS3]
    sends these commands, in the order of [files], before any upload
    settles. *)
Definition upload_command (bucketName prefix : string) (file : MarkdownFile.t)
  : PutObjectCommand.Input :=
  {| PutObjectCommand.Bucket := bucketName;
     PutObjectCommand.Key := prefix +:+ MarkdownFile.relativePath file;
     PutObjectCommand.Body := MarkdownFile.content file;
     PutObjectCommand.ContentType := "text/markdown";
     PutObjectCommand.Metadata :=
       [("source-file", MarkdownFile.path file); ("format", "markdown")] |}.

Definition uploadToS3_commands (files : list MarkdownFile.t)
  (bucketName prefix : string) : list PutObjectCommand.Input :=
  map (upload_command bucketName prefix) files.

(** ** ingestion/src/convert-rst.ts *)

Module FrontMatter.
Record t := { title : string; source : string; original_format : string }.
End FrontMatter.

(** What [convertRstToMarkdown] calls and this development does not fix:
    [glob] (pattern, [cwd]; absolute paths), [execAsync] (a command and the
    standard output it prints, or its failure), [relative] and [basename]
    of [path], and [matter.stringify]. *)
Record IngestHost := {
  glob : string → string → Thrown + list string;
  execAsync : string → Thrown + string;
  path_relative : string → string → string;
  path_basename : string → string → string;
  matter_stringify : string → FrontMatter.t → string
}.

Module Rst.

(** The white space of [\s] and of [trim()] among one-byte code units:
    tab, line feed, vertical tab, form feed, carriage return, space and
    no-break space. *)
Definition is_space (c : ascii) : bool :=
  let n := nat_of_ascii c in
  (Nat.leb 9 n && Nat.leb n 13) || Nat.eqb n 32 || Nat.eqb n 160.

Definition hash : ascii := ascii_of_nat 35.

Fixpoint drop_hashes (s : string) : string :=
  match s with
  | String c s' => if Ascii.eqb c hash then drop_hashes s' else s
  | EmptyString => EmptyString
  end.

(** [s.trimStart()] *)
Fixpoint trim_start (s : string) : string :=
  match s with
  | String c s' => if is_space c then trim_start s' else s
  | EmptyString => EmptyString
  end.

(** [s.trimEnd()] *)
Fixpoint trim_end (s : string) : string :=
  match s with
  | EmptyString => EmptyString
  | String c s' =>
      match trim_end s' with
      | EmptyString => if is_space c then EmptyString else String c EmptyString
      | rest => String c rest
      end
  end.

Definition trim (s : string) : string := trim_end (trim_start s).

(** [s.replace(/^#+\s*/, '')]: a run of hashes at the start, and the
    white space after it, are removed; a string that does not begin with a
    hash is returned as it is. *)
Definition strip_heading_marker (s : string) : string :=
  match s with
  | String c _ => if Ascii.eqb c hash then trim_start (drop_hashes s) else s
  | EmptyString => EmptyString
  end.

(** [s.replace(/\.rst$/, '.md')] *)
Fixpoint rst_to_md (s : string) : string :=
  match s with
  | EmptyString => EmptyString
  | String c s' => if String.eqb s ".rst" then ".md" else String c (rst_to_md s')
  end.

(** [l.startsWith('#')] *)
Definition is_heading (l : string) : bool :=
  match l with
  | String c _ => Ascii.eqb c hash
  | EmptyString => false
  end.

End Rst.

(** The title: the text of the first line that begins with a hash, or the
    base name of the file. *)
Definition title_of (ih : IngestHost) (rstFile stdout : string) : string :=
  let lines := Str.split (ascii_of_nat 10) stdout in
  match List.find Rst.is_heading lines with
  | Some firstHeading => Rst.trim (Rst.strip_heading_marker firstHeading)
  | None => path_basename ih rstFile ".rst"
  end.

(** The body of the [try] block of the loop, after pandoc has printed
    [stdout] for [rstFile]. *)
Definition converted (ih : IngestHost) (docsPath rstFile stdout : string)
  : MarkdownFile.t :=
  let relativePath := Rst.rst_to_md (path_relative ih docsPath rstFile) in
  let title := title_of ih rstFile stdout in
  let contentWithMeta :=
    matter_stringify ih stdout
      {| FrontMatter.title := title;
         FrontMatter.source := "smithy-docs/" +:+ relativePath;
         FrontMatter.original_format := "rst" |} in
  {| MarkdownFile.path := rstFile;
     MarkdownFile.content := contentWithMeta;
     MarkdownFile.relativePath := relativePath |}.

Definition pandoc_command (rstFile : string) : string :=
  "pandoc " +:+ Str.dq +:+ rstFile +:+ Str.dq
  +:+ " -f rst -t markdown --wrap=none".

(** What is written to the console is left out. *)
Definition convertRstToMarkdown (ih : IngestHost) (docsPath : string)
  : Thrown + list MarkdownFile.t :=
  match glob ih "**/*.rst" docsPath with
  | inl e => inl e
  | inr rstFiles =>
      match execAsync ih "pandoc --version" with
      | inl _ =>
          inl (ErrorObject "Error"
                 "Pandoc is required. Install: brew install pandoc (macOS) or apt-get install pandoc (Linux)")
      | inr _ =>
          inr (foldl
                 (λ markdownFiles rstFile,
                    match execAsync ih (pandoc_command rstFile) with
                    | inr stdout =>
                        (markdownFiles ++ [converted ih docsPath rstFile stdout])%list
                    | inl _ => markdownFiles
                    end)
                 [] rstFiles)
      end
  end.

(** * Vocabulary of the statements *)

(** A concrete host and concrete collaborators, for the examples.  The
    engine's messages are those of V8.  [Number_toString] is not V8's: no
    example passes a score of magnitude [10^21] or more, the only numbers
    it is applied to. *)
Module Sample.

Definition v8 : Engine :=
  {| Number_toString := λ _, "1e+21";
     TypeError_message := λ site,
       match site with
       | NotAFunction => "fileTree[dir].push is not a function"
       | DestructureUndefined =>
           "Cannot destructure property 'name' of 'mcpRequest.params' as it is undefined."
       | DestructureNull =>
           "Cannot destructure property 'name' of 'mcpRequest.params' as it is null."
       | PropertyOfNull => "Cannot read properties of null (reading 'method')"
       end |}.

Definition host : Host :=
  {| engine := v8;
     env := {| BUCKET_NAME := "docs-bucket"; KNOWLEDGE_BASE_ID := "KB0001" |} |}.

Definition object (key : string) : ListObjectsV2Command.Object :=
  {| ListObjectsV2Command.Key := Some key |}.

(** A store with one document, [quickstart.md], and a knowledge base
    that finds nothing. *)
Definition store : Collaborators :=
  {| retrieve := λ _, inr {| RetrieveCommand.retrievalResults := Some [] |};
     getObject := λ i,
       if String.eqb (GetObjectCommand.Key i) "smithy-docs/quickstart.md"
       then inr {| GetObjectCommand.Body := Some (inr "# Hello") |}
       else inl (ErrorObject "NoSuchKey" "The specified key does not exist.");
     listObjectsV2 := λ _,
       inr {| ListObjectsV2Command.Contents :=
                Some [object "smithy-docs/quickstart.md"] |} |}.

(** Collaborators that are out of service. *)
Definition down : Collaborators :=
  {| retrieve := λ _, inl (ErrorObject "ThrottlingException" "Rate exceeded");
     getObject := λ _, inl (ErrorObject "AccessDenied" "Access Denied");
     listObjectsV2 := λ _, inl (OtherObject None) |}.

(** -3, 0.5 and 11 as doubles. *)
Definition minus_three : number := S754_finite true 6755399441055744 (-51).
Definition half : number := S754_finite false 4503599627370496 (-53).
Definition eleven : number := S754_finite false 6192449487634432 (-49).

End Sample.

(** ** The command each handler sends *)

(** The [RetrieveCommand] built for a search. *)
Definition search_command (h : Host) (query : string) (limit : number)
  : RetrieveCommand.Input :=
  {| RetrieveCommand.knowledgeBaseId := KNOWLEDGE_BASE_ID (env h);
     RetrieveCommand.retrievalQuery_text := query;
     RetrieveCommand.numberOfResults := limit |}.

Definition read_command (h : Host) (key : string) : GetObjectCommand.Input :=
  {| GetObjectCommand.Bucket := BUCKET_NAME (env h);
     GetObjectCommand.Key := key |}.

Definition list_command (h : Host) : ListObjectsV2Command.Input :=
  {| ListObjectsV2Command.Bucket := BUCKET_NAME (env h);
     ListObjectsV2Command.Prefix := PREFIX |}.

(** Does the character [c] occur in [s]? *)
Fixpoint occurs (c : ascii) (s : string) : bool :=
  match s with
  | EmptyString => false
  | String c' s' => Ascii.eqb c' c || occurs c s'
  end.

(** [segment] is the final path segment of [uri]: what follows the last
    slash of [uri], or all of [uri] when it has no slash. *)
Definition final_segment (uri segment : string) : Prop :=
  occurs Str.slash segment = false
  ∧ (uri = segment ∨ ∃ dir, uri = dir +:+ "/" +:+ segment).

(** What the store answers when it lists the given keys, in this order. *)
Definition listing (keys : list string) : ListObjectsV2Command.Output :=
  {| ListObjectsV2Command.Contents :=
       Some (map (λ key, {| ListObjectsV2Command.Key := Some key |}) keys) |}.

(** Collaborators whose store lists the given keys, in this order. *)
Definition lists (keys : list string) : Collaborators :=
  {| retrieve := retrieve Sample.store;
     getObject := getObject Sample.store;
     listObjectsV2 := λ _, inr (listing keys) |}.

(** The blocks of the results, in the order of the results. *)
Definition report_blocks (h : Host) (results : list SearchResult.t) : string :=
  foldr String.append EmptyString (imap (result_block h) results).

(** The relative paths of the listed objects that have a key, in the order
    of the listing. *)
Definition listed_paths (files : list ListObjectsV2Command.Object)
  : list string :=
  omap (λ file,
          match ListObjectsV2Command.Key file with
          | Some key =>
              if Str.truthy key then Some (Str.remove_first PREFIX key) else None
          | None => None
          end)
    files.

(** 0.91 and 0.77 as doubles. *)
Definition score_091 : number := S754_finite false 8196551321814303 (-53).
Definition score_077 : number := S754_finite false 6935543426150564 (-53).

(** A knowledge base that answers every query with the same two results. *)
Definition finds_two : Collaborators :=
  {| retrieve := λ _,
       inr {| RetrieveCommand.retrievalResults :=
                Some
                  [{| RetrieveCommand.content_text := Some "service Weather {}";
                      RetrieveCommand.location_uri :=
                        Some "s3://docs-bucket/smithy-docs/quickstart.md";
                      RetrieveCommand.score := Some score_091;
                      RetrieveCommand.metadata := None |};
                   {| RetrieveCommand.content_text := Some "Services";
                      RetrieveCommand.location_uri := None;
                      RetrieveCommand.score := Some score_077;
                      RetrieveCommand.metadata := None |}] |};
     getObject := getObject Sample.store;
     listObjectsV2 := listObjectsV2 Sample.store |}.

(** One bullet line per path. *)
Definition bullets (paths : list string) : string :=
  foldr (λ path rest, "- `" +:+ path +:+ "`" +:+ Str.nl +:+ rest)
    EmptyString paths.

(** The text of a listing: the header with the count, then one block per
    directory of [dirs] with the paths of that directory, in the order of
    [paths]. *)
Definition listing_text (count : nat) (dirs paths : list string) : string :=
  "# Smithy Documentation Files" +:+ Str.nl +:+ Str.nl
  +:+ "Total files: " +:+ Str.of_nat count +:+ Str.nl +:+ Str.nl
  +:+ foldr
        (λ dir rest,
           "## " +:+ dir +:+ Str.nl +:+ Str.nl
           +:+ bullets (filter (λ path, dir_of path = dir) paths)
           +:+ Str.nl +:+ rest)
        EmptyString dirs.

(** All characters of [s] satisfy [test]. *)
Fixpoint all_of (test : ascii → bool) (s : string) : bool :=
  match s with
  | EmptyString => true
  | String c s' => test c && all_of test s'
  end.

Definition first_char (s : string) : option ascii :=
  match s with
  | EmptyString => None
  | String c _ => Some c
  end.

Fixpoint last_char (s : string) : option ascii :=
  match s with
  | EmptyString => None
  | String c EmptyString => Some c
  | String _ s' => last_char s'
  end.

(** Does pandoc print a conversion of [rstFile]? *)
Definition pandoc_succeeds (ih : IngestHost) (rstFile : string) : bool :=
  match execAsync ih (pandoc_command rstFile) with
  | inr _ => true
  | inl _ => false
  end.

(** A machine on which pandoc converts every file but [/docs/broken.rst]. *)
Definition workstation : IngestHost :=
  {| glob := λ _ _, inr ["/docs/index.rst"; "/docs/broken.rst"; "/docs/spec/idl.rst"];
     execAsync := λ command,
       if String.eqb command (pandoc_command "/docs/broken.rst")
       then inl (ErrorObject "Error" "Command failed")
       else inr ("Intro" +:+ Str.nl +:+ "##  The IDL  " +:+ Str.nl +:+ "text");
     path_relative := λ from to, Str.remove_first (from +:+ "/") to;
     path_basename := λ p ext, "index";
     matter_stringify := λ body data,
       "title: " +:+ FrontMatter.title data +:+ Str.nl +:+ body |}.

(** The promise resolved with a response of exactly one block, of type
    "text". *)
Definition one_text_block (o : Thrown + MCPToolResponse.t) : Prop :=
  ∃ (text : string) (isError : option bool),
    o = inr {| MCPToolResponse.content :=
                 [{| ContentBlock.type := "text"; ContentBlock.text := text |}];
               MCPToolResponse.isError := isError |}.

(** A [tools/call] request. *)
Definition tools_call (call : ToolCall.t) : McpRequest.t :=
  {| McpRequest.method := Some "tools/call"; McpRequest.params := Some call |}.

(** Unfolds a handler applied to collaborators down to the call it makes. *)
Ltac expose_call :=
  unfold settled, sent, handleSearchTool, handleReadTool, handleListTool,
    searchKnowledgeBase, bedrock_send, s3_send_get, s3_send_list, body_text;
  cbn [run bind try_catch settle fst snd default from_option id
       SearchArgs.query SearchArgs.max_results ReadArgs.file_path].

(** * Properties *)

Lemma sent_handleSearchTool (h : Host) (w : Collaborators) (args : SearchArgs.t) :
  sent w (handleSearchTool h args)
  = [SentRetrieve (search_command h (SearchArgs.query args) (effective_limit args))].
Proof.
  unfold sent, handleSearchTool, searchKnowledgeBase, bedrock_send, search_command.
  cbn.
  destruct (retrieve w _) as [e | out]; cbn; [reflexivity |].
  destruct (Nat.eqb _ 0); reflexivity.
Qed.

Lemma sent_handleReadTool (h : Host) (w : Collaborators) (args : ReadArgs.t) :
  sent w (handleReadTool h args)
  = [SentGetObject (read_command h (read_key (ReadArgs.file_path args)))].
Proof.
  unfold sent, handleReadTool, s3_send_get, read_command, body_text.
  cbn.
  destruct (getObject w _) as [e | [[[e | s] |]]]; cbn.
  - destruct (bool_decide _); reflexivity.
  - destruct (bool_decide _); reflexivity.
  - destruct (negb _); reflexivity.
  - reflexivity.
Qed.

Lemma sent_handleListTool (h : Host) (w : Collaborators) :
  sent w (handleListTool h) = [SentListObjectsV2 (list_command h)].
Proof.
  unfold sent, handleListTool, s3_send_list, list_command.
  cbn.
  destruct (listObjectsV2 w _) as [e | out]; cbn; [reflexivity |].
  destruct (Nat.eqb _ 0); cbn; [reflexivity |].
  destruct (build_tree _ _ _); reflexivity.
Qed.

(** ** The result limit *)

Section Limit.

Lemma min_step_from_infinity (x : number) :
  is_nan x = false → min_step pos_infinity x = x.
Proof.
  destruct x as [s | s | | s m e]; try destruct s; cbn; intros; reflexivity.
Qed.

Lemma lt_not_nan (x y : number) : SFltb x y = true → is_nan x = false ∧ is_nan y = false.
Proof.
  destruct x, y; unfold SFltb, SFcompare; split; try reflexivity; discriminate.
Qed.

Lemma Math_min_above (x : number) : SFltb ten x = true → Math_min x ten = ten.
Proof.
  intros Hlt. unfold Math_min.
  destruct (lt_not_nan _ _ Hlt) as [_ Hnan].
  rewrite min_step_from_infinity by assumption.
  unfold min_step. rewrite Hnan, Hlt. reflexivity.
Qed.

(** Below one means not above ten. *)
Lemma below_one_not_above_ten (x : number) :
  SFltb x Num.one = true → SFltb ten x = false.
Proof.
  destruct x as [s | s | | s m e]; try destruct s.
  all: unfold SFltb, SFcompare, Num.one, ten.
  all: try (intros; reflexivity).
  all: try (intros; discriminate).
  destruct (Z.compare_spec e (-52)) as [-> | Hlt | Hgt].
  - intros _. reflexivity.
  - intros _. destruct (Z.compare_spec (-49) e) as [Heq | Hlt' | Hgt'];
      [lia | lia | reflexivity].
  - discriminate.
Qed.

Lemma Math_min_below (x : number) :
  SFltb x Num.one = true → Math_min x ten = x.
Proof.
  intros Hlt. unfold Math_min.
  destruct (lt_not_nan _ _ Hlt) as [Hnan _].
  rewrite min_step_from_infinity by assumption.
  unfold min_step. rewrite Hnan, (below_one_not_above_ten x Hlt).
  reflexivity.
Qed.

Lemma lt_ten_truthy (x : number) : SFltb ten x = true → truthy x = true.
Proof.
  destruct x as [s | s | | s m e]; unfold SFltb, SFcompare, ten;
    try reflexivity; discriminate.
Qed.

Lemma effective_limit_above (query : string) (x : number) :
  SFltb ten x = true →
  effective_limit {| SearchArgs.query := query; SearchArgs.max_results := Some x |}
  = ten.
Proof.
  intros Hlt. unfold effective_limit, Num.or_else, SearchArgs.max_results.
  rewrite (lt_ten_truthy x Hlt).
  apply Math_min_above, Hlt.
Qed.

Lemma effective_limit_absent (query : string) :
  effective_limit {| SearchArgs.query := query; SearchArgs.max_results := None |}
  = five.
Proof. reflexivity. Qed.

Lemma effective_limit_below (query : string) (x : number) :
  SFltb x Num.one = true →
  effective_limit {| SearchArgs.query := query; SearchArgs.max_results := Some x |}
  = if is_zero x then five else x.
Proof.
  intros Hlt. unfold effective_limit, Num.or_else, SearchArgs.max_results.
  destruct x as [s | s | | s m e]; unfold truthy, is_zero.
  - reflexivity.
  - apply Math_min_below, Hlt.
  - discriminate Hlt.
  - apply Math_min_below, Hlt.
Qed.

End Limit.

(** ** Search *)

(** C1. A search whose [max_results] is above 10 sends exactly one
    retrieval command, with limit 10; a search without [max_results] sends
    exactly one, with limit 5. *)
Theorem search_limit_clamp (h : Host) (w : Collaborators) (query : string) :
  (∀ x : number,
     SFltb ten x = true →
     sent w (handleSearchTool h
               {| SearchArgs.query := query; SearchArgs.max_results := Some x |})
     = [SentRetrieve
          {| RetrieveCommand.knowledgeBaseId := KNOWLEDGE_BASE_ID (env h);
             RetrieveCommand.retrievalQuery_text := query;
             RetrieveCommand.numberOfResults := ten |}])
  ∧ sent w (handleSearchTool h
              {| SearchArgs.query := query; SearchArgs.max_results := None |})
    = [SentRetrieve
         {| RetrieveCommand.knowledgeBaseId := KNOWLEDGE_BASE_ID (env h);
            RetrieveCommand.retrievalQuery_text := query;
            RetrieveCommand.numberOfResults := five |}].
Proof.
  split.
  - intros x Hlt. rewrite sent_handleSearchTool, effective_limit_above by exact Hlt.
    reflexivity.
  - rewrite sent_handleSearchTool, effective_limit_absent. reflexivity.
Qed.

Lemma search_limit_clamp_witness :
  sent Sample.store
    (handleSearchTool Sample.host
       {| SearchArgs.query := "service";
          SearchArgs.max_results := Some Sample.eleven |})
  = [SentRetrieve
       {| RetrieveCommand.knowledgeBaseId := "KB0001";
          RetrieveCommand.retrievalQuery_text := "service";
          RetrieveCommand.numberOfResults := ten |}].
Proof.
  exact (proj1 (search_limit_clamp Sample.host Sample.store "service")
           Sample.eleven eq_refl).
Defined.

(** C8, as the code has it.  A supplied [max_results] below 1 is replaced
    by the default 5 only when it is zero; any other value below 1 is sent
    to the retrieval service unchanged. *)
Theorem search_limit_below_one (h : Host) (w : Collaborators) (query : string)
  (x : number) :
  SFltb x Num.one = true →
  sent w (handleSearchTool h
            {| SearchArgs.query := query; SearchArgs.max_results := Some x |})
  = [SentRetrieve
       {| RetrieveCommand.knowledgeBaseId := KNOWLEDGE_BASE_ID (env h);
          RetrieveCommand.retrievalQuery_text := query;
          RetrieveCommand.numberOfResults := if is_zero x then five else x |}].
Proof.
  intros Hlt. rewrite sent_handleSearchTool, effective_limit_below by exact Hlt.
  reflexivity.
Qed.

Lemma search_limit_below_one_witness :
  sent Sample.store
    (handleSearchTool Sample.host
       {| SearchArgs.query := "service"; SearchArgs.max_results := Some Sample.half |})
  = [SentRetrieve
       {| RetrieveCommand.knowledgeBaseId := "KB0001";
          RetrieveCommand.retrievalQuery_text := "service";
          RetrieveCommand.numberOfResults := Sample.half |}].
Proof.
  exact (search_limit_below_one Sample.host Sample.store "service" Sample.half
           eq_refl).
Defined.

(** C8, as stated, fails: with [max_results = -3], a double below 1, the
    limit sent is -3 and not 5. *)
Lemma search_limit_below_one_counterexample :
  Num.valid Sample.minus_three = true
  ∧ SFltb Sample.minus_three Num.one = true
  ∧ sent Sample.store
      (handleSearchTool Sample.host
         {| SearchArgs.query := "service";
            SearchArgs.max_results := Some Sample.minus_three |})
    = [SentRetrieve
         {| RetrieveCommand.knowledgeBaseId := "KB0001";
            RetrieveCommand.retrievalQuery_text := "service";
            RetrieveCommand.numberOfResults := Sample.minus_three |}]
  ∧ sent Sample.store
      (handleSearchTool Sample.host
         {| SearchArgs.query := "service";
            SearchArgs.max_results := Some Sample.minus_three |})
    ≠ [SentRetrieve
         {| RetrieveCommand.knowledgeBaseId := "KB0001";
            RetrieveCommand.retrievalQuery_text := "service";
            RetrieveCommand.numberOfResults := five |}].
Proof.
  split; [reflexivity |]. split; [reflexivity |]. split; [reflexivity |].
  intros Heq. vm_compute in Heq. discriminate Heq.
Qed.

(** C7. When the retrieval call fails, the search handler resolves (it
    does not throw) with an error response whose one text block is
    "Error searching documentation: " followed by the message of the
    error, or by "Unknown error" when what was thrown is not an [Error]. *)
Theorem search_failure_reported (h : Host) (w : Collaborators)
  (args : SearchArgs.t) (error : Thrown) :
  retrieve w
    {| RetrieveCommand.knowledgeBaseId := KNOWLEDGE_BASE_ID (env h);
       RetrieveCommand.retrievalQuery_text := SearchArgs.query args;
       RetrieveCommand.numberOfResults := effective_limit args |}
  = inl error →
  settled w (handleSearchTool h args)
  = inr {| MCPToolResponse.content :=
             [{| ContentBlock.type := "text";
                 ContentBlock.text :=
                   "Error searching documentation: "
                   +:+ match error with
                       | ErrorObject _ message => message
                       | OtherObject _ => "Unknown error"
                       end |}];
           MCPToolResponse.isError := Some true |}.
Proof.
  intros Hfail. expose_call. rewrite Hfail. cbn.
  destruct error; reflexivity.
Qed.

Lemma search_failure_reported_witness :
  settled Sample.down
    (handleSearchTool Sample.host
       {| SearchArgs.query := "service"; SearchArgs.max_results := None |})
  = inr {| MCPToolResponse.content :=
             [{| ContentBlock.type := "text";
                 ContentBlock.text :=
                   "Error searching documentation: Rate exceeded" |}];
           MCPToolResponse.isError := Some true |}.
Proof.
  exact (search_failure_reported Sample.host Sample.down
           {| SearchArgs.query := "service"; SearchArgs.max_results := None |}
           (ErrorObject "ThrottlingException" "Rate exceeded") eq_refl).
Defined.

(** C4. A search for which the retrieval service returns no result
    resolves with a response without [isError]; a read of a key the store
    reports as missing ([NoSuchKey]) resolves with [isError: true]. *)
Theorem empty_is_success_missing_is_error (h : Host) (w : Collaborators)
  (sargs : SearchArgs.t) (rargs : ReadArgs.t) :
  (∀ output : RetrieveCommand.Output,
     retrieve w
       {| RetrieveCommand.knowledgeBaseId := KNOWLEDGE_BASE_ID (env h);
          RetrieveCommand.retrievalQuery_text := SearchArgs.query sargs;
          RetrieveCommand.numberOfResults := effective_limit sargs |}
     = inr output →
     length (default [] (RetrieveCommand.retrievalResults output)) = 0 →
     settled w (handleSearchTool h sargs)
     = inr {| MCPToolResponse.content :=
                [{| ContentBlock.type := "text";
                    ContentBlock.text :=
                      "No relevant documentation found for your query. Try rephrasing or using different keywords." |}];
              MCPToolResponse.isError := None |})
  ∧ (∀ error : Thrown,
       getObject w
         {| GetObjectCommand.Bucket := BUCKET_NAME (env h);
            GetObjectCommand.Key := read_key (ReadArgs.file_path rargs) |}
       = inl error →
       error_name error = Some "NoSuchKey" →
       settled w (handleReadTool h rargs)
       = inr {| MCPToolResponse.content :=
                  [{| ContentBlock.type := "text";
                      ContentBlock.text :=
                        "Document not found: " +:+ ReadArgs.file_path rargs
                        +:+ Str.nl +:+ Str.nl
                        +:+ "Tip: Use search_smithy_docs to find available documents." |}];
                MCPToolResponse.isError := Some true |}).
Proof.
  split.
  - intros output Hfound Hnone. expose_call. rewrite Hfound. cbn.
    rewrite length_map, Hnone. reflexivity.
  - intros error Hget Hname. expose_call. rewrite Hget. cbn.
    rewrite Hname. reflexivity.
Qed.

Lemma empty_is_success_missing_is_error_witness :
  settled Sample.store
    (handleSearchTool Sample.host
       {| SearchArgs.query := "service"; SearchArgs.max_results := None |})
  = inr {| MCPToolResponse.content :=
             [{| ContentBlock.type := "text";
                 ContentBlock.text :=
                   "No relevant documentation found for your query. Try rephrasing or using different keywords." |}];
           MCPToolResponse.isError := None |}
  ∧ settled Sample.store
      (handleReadTool Sample.host {| ReadArgs.file_path := "missing.md" |})
    = inr {| MCPToolResponse.content :=
               [{| ContentBlock.type := "text";
                   ContentBlock.text :=
                     "Document not found: missing.md" +:+ Str.nl +:+ Str.nl
                     +:+ "Tip: Use search_smithy_docs to find available documents." |}];
             MCPToolResponse.isError := Some true |}.
Proof.
  pose proof
    (empty_is_success_missing_is_error Sample.host Sample.store
       {| SearchArgs.query := "service"; SearchArgs.max_results := None |}
       {| ReadArgs.file_path := "missing.md" |}) as [Hsearch Hread].
  split.
  - exact (Hsearch {| RetrieveCommand.retrievalResults := Some [] |}
             eq_refl eq_refl).
  - exact (Hread (ErrorObject "NoSuchKey" "The specified key does not exist.")
             eq_refl eq_refl).
Defined.

(** ** Lists of segments *)

Lemma append_nil_l (t : string) : EmptyString +:+ t = t.
Proof. reflexivity. Qed.

Lemma append_cons (c : ascii) (s t : string) :
  String c s +:+ t = String c (s +:+ t).
Proof. reflexivity. Qed.

Section Split.

Variable sep : ascii.

Lemma split_nonempty (s : string) : Str.split sep s ≠ [].
Proof.
  destruct s as [| c s]; cbn; [discriminate |].
  destruct (Ascii.eqb c sep); [discriminate |].
  destruct (Str.split sep s); discriminate.
Qed.

(** A string without separator is one segment. *)
Lemma split_whole (s : string) : occurs sep s = false → Str.split sep s = [s].
Proof.
  induction s as [| c s IH]; cbn; [reflexivity |].
  destruct (Ascii.eqb c sep); cbn; [discriminate |].
  intros Hs. rewrite (IH Hs). reflexivity.
Qed.

(** Splitting distributes over a separator. *)
Lemma split_at_sep (dir rest : string) :
  Str.split sep (dir +:+ String sep rest)
  = (Str.split sep dir ++ Str.split sep rest)%list.
Proof.
  induction dir as [| c dir IH].
  - rewrite append_nil_l. cbn. rewrite Ascii.eqb_refl. reflexivity.
  - rewrite append_cons. cbn.
    destruct (Ascii.eqb c sep); rewrite IH; [reflexivity |].
    pose proof (split_nonempty dir) as Hne.
    destruct (Str.split sep dir); [congruence | reflexivity].
Qed.

Lemma last_split_at_sep (dir rest : string) :
  last (Str.split sep (dir +:+ String sep rest)) = last (Str.split sep rest).
Proof.
  rewrite split_at_sep.
  pose proof (split_nonempty rest) as Hne.
  destruct (Str.split sep rest) as [| p ps] eqn:Hrest using rev_ind;
    [congruence |].
  rewrite app_assoc, !last_snoc. reflexivity.
Qed.

End Split.

Lemma last_split_final_segment (uri segment : string) :
  final_segment uri segment → last (Str.split Str.slash uri) = Some segment.
Proof.
  intros [Hfree [-> | [dir ->]]].
  - rewrite split_whole by exact Hfree. reflexivity.
  - change (dir +:+ "/" +:+ segment) with (dir +:+ String Str.slash segment).
    rewrite last_split_at_sep, split_whole by exact Hfree. reflexivity.
Qed.

(** Every location has a final segment. *)
Lemma final_segment_exists (uri : string) : ∃ segment, final_segment uri segment.
Proof.
  induction uri as [| c uri [seg [Hfree Hseg]]].
  - exists EmptyString. split; [reflexivity | left; reflexivity].
  - destruct Hseg as [-> | [dir ->]].
    + destruct (Ascii.eqb c Str.slash) eqn:Hc.
      * apply Ascii.eqb_eq in Hc as ->. exists seg. split; [exact Hfree |].
        right. exists EmptyString. reflexivity.
      * exists (String c seg). split; [| left; reflexivity].
        cbn. rewrite Hc, Hfree. reflexivity.
    + exists seg. split; [exact Hfree |]. right. exists (String c dir). reflexivity.
Qed.

(** The label in the block of one result: the final path segment of the
    result's location, and "unknown" when that segment is empty. *)
Lemma result_block_label (h : Host) (index : nat) (result : SearchResult.t)
  (segment : string) :
  final_segment (SearchResult.s3Uri (SearchResult.location result)) segment →
  result_block h index result
  = "## Result " +:+ Str.of_nat (index + 1) +:+ " (Score: "
    +:+ Fixed.toFixed (engine h) (SearchResult.score result) 3 +:+ ")" +:+ Str.nl
    +:+ "**Source:** `"
    +:+ (if String.eqb segment EmptyString then "unknown" else segment)
    +:+ "`" +:+ Str.nl +:+ Str.nl
    +:+ SearchResult.content result +:+ Str.nl +:+ Str.nl
    +:+ "---" +:+ Str.nl +:+ Str.nl.
Proof.
  intros Hseg. unfold result_block, fileName.
  rewrite (last_split_final_segment _ _ Hseg). cbn [default from_option id].
  destruct segment; reflexivity.
Qed.

(** The label of a location with a file name. *)
Example fileName_of_document :
  fileName
    {| SearchResult.content := EmptyString;
       SearchResult.location :=
         {| SearchResult.s3Uri := "s3://docs-bucket/smithy-docs/guides/model.md";
            SearchResult.type := "S3" |};
       SearchResult.score := zero;
       SearchResult.metadata := None |}
  = "model.md".
Proof. reflexivity. Qed.

(** ** The search report *)

Lemma append_assoc (s t u : string) : (s +:+ t) +:+ u = s +:+ (t +:+ u).
Proof.
  induction s as [| c s IH]; [reflexivity |].
  rewrite !append_cons, IH. reflexivity.
Qed.

Lemma append_nil_r (s : string) : s +:+ EmptyString = s.
Proof.
  induction s as [| c s IH]; [reflexivity |].
  rewrite append_cons, IH. reflexivity.
Qed.

(** A [forEach] that appends to one string appends the pieces in order. *)
Lemma foldl_append {A : Type} (f : nat → A → string) (xs : list A) :
  ∀ (k : nat) (init : string),
    foldl (λ s ix, s +:+ f ix.1 ix.2) init (zip (seq k (length xs)) xs)
    = init +:+ foldr String.append EmptyString (imap (λ i, f (k + i)) xs).
Proof.
  induction xs as [| x xs IH]; intros k init.
  - cbn. rewrite append_nil_r. reflexivity.
  - cbn [length seq zip zip_with foldl fst snd]. rewrite IH, imap_cons.
    cbn [foldr]. rewrite append_assoc, Nat.add_0_r.
    do 3 f_equal. apply imap_ext. intros i y _. cbn. f_equal. lia.
Qed.

Lemma forEach_append {A : Type} (f : nat → A → string) (xs : list A)
  (init : string) :
  forEach xs (λ s i x, s +:+ f i x) init
  = init +:+ foldr String.append EmptyString (imap f xs).
Proof.
  unfold forEach. rewrite (foldl_append f xs 0 init). reflexivity.
Qed.

(** With at least one result, the report is the header followed by the
    blocks of the results in the order in which they were retrieved. *)
Lemma search_report (h : Host) (w : Collaborators) (args : SearchArgs.t)
  (output : RetrieveCommand.Output) :
  retrieve w (search_command h (SearchArgs.query args) (effective_limit args))
  = inr output →
  default [] (RetrieveCommand.retrievalResults output) ≠ [] →
  settled w (handleSearchTool h args)
  = inr {| MCPToolResponse.content :=
             [text_block
                (search_header (SearchArgs.query args)
                   (length (default [] (RetrieveCommand.retrievalResults output)))
                 +:+ report_blocks h
                       (map to_search_result
                          (default []
                             (RetrieveCommand.retrievalResults output))))];
           MCPToolResponse.isError := None |}.
Proof.
  intros Hfound Hsome. unfold search_command in Hfound.
  expose_call. rewrite Hfound. cbn.
  destruct (default [] (RetrieveCommand.retrievalResults output)) as [| r rs] eqn:Hrs;
    [congruence |].
  cbn [map length Nat.eqb].
  rewrite (forEach_append (result_block h)), length_map. reflexivity.
Qed.

(** Two results with scores 0.91 and 0.77, the second without location. *)
Example search_two_results :
  settled finds_two
    (handleSearchTool Sample.host
       {| SearchArgs.query := "How do I define a service?";
          SearchArgs.max_results := Some (S754_finite false 4503599627370496 (-51)) |})
  = inr {| MCPToolResponse.content :=
             [{| ContentBlock.type := "text";
                 ContentBlock.text :=
                   "# Search Results for: " +:+ Str.dq
                   +:+ "How do I define a service?" +:+ Str.dq
                   +:+ Str.nl +:+ Str.nl
                   +:+ "Found 2 relevant section(s):" +:+ Str.nl +:+ Str.nl
                   +:+ "## Result 1 (Score: 0.910)" +:+ Str.nl
                   +:+ "**Source:** `quickstart.md`" +:+ Str.nl +:+ Str.nl
                   +:+ "service Weather {}" +:+ Str.nl +:+ Str.nl
                   +:+ "---" +:+ Str.nl +:+ Str.nl
                   +:+ "## Result 2 (Score: 0.770)" +:+ Str.nl
                   +:+ "**Source:** `unknown`" +:+ Str.nl +:+ Str.nl
                   +:+ "Services" +:+ Str.nl +:+ Str.nl
                   +:+ "---" +:+ Str.nl +:+ Str.nl |}];
           MCPToolResponse.isError := None |}.
Proof. vm_compute. reflexivity. Qed.

(** Two lists related element by element are mapped alike by functions
    that agree on related elements. *)
Lemma imap_zip_ext {A B C : Type} (R : A → B → Prop) (xs : list A) (ys : list B) :
  Forall2 R xs ys →
  ∀ (f : nat → A → C) (g : nat → A * B → C),
    (∀ i a b, R a b → f i a = g i (a, b)) →
    imap f xs = imap g (zip xs ys).
Proof.
  induction 1 as [| a b xs ys Hab _ IH]; intros f g Hfg; [reflexivity |].
  cbn [zip zip_with]. rewrite !imap_cons. f_equal; [apply Hfg, Hab |].
  apply IH. intros i a' b' Hab'. apply (Hfg (S i) a' b' Hab').
Qed.

(** C9. In the report the search handler answers with, the block of every
    result carries as source label the final path segment of the result's
    location, and "unknown" when that segment is empty (the location is
    empty or ends with a slash). *)
Theorem source_label (h : Host) (w : Collaborators) (args : SearchArgs.t)
  (output : RetrieveCommand.Output) (segments : list string) :
  retrieve w
    {| RetrieveCommand.knowledgeBaseId := KNOWLEDGE_BASE_ID (env h);
       RetrieveCommand.retrievalQuery_text := SearchArgs.query args;
       RetrieveCommand.numberOfResults := effective_limit args |}
  = inr output →
  Forall2
    (λ result segment,
       final_segment (SearchResult.s3Uri (SearchResult.location result)) segment)
    (map to_search_result (default [] (RetrieveCommand.retrievalResults output)))
    segments →
  segments ≠ [] →
  settled w (handleSearchTool h args)
  = inr {| MCPToolResponse.content :=
             [{| ContentBlock.type := "text";
                 ContentBlock.text :=
                   "# Search Results for: " +:+ Str.dq +:+ SearchArgs.query args
                   +:+ Str.dq +:+ Str.nl +:+ Str.nl
                   +:+ "Found " +:+ Str.of_nat (length segments)
                   +:+ " relevant section(s):" +:+ Str.nl +:+ Str.nl
                   +:+ foldr String.append EmptyString
                         (imap
                            (λ index labelled,
                               "## Result " +:+ Str.of_nat (index + 1)
                               +:+ " (Score: "
                               +:+ Fixed.toFixed (engine h)
                                     (SearchResult.score labelled.1) 3
                               +:+ ")" +:+ Str.nl
                               +:+ "**Source:** `"
                               +:+ (if String.eqb labelled.2 EmptyString
                                    then "unknown" else labelled.2)
                               +:+ "`" +:+ Str.nl +:+ Str.nl
                               +:+ SearchResult.content labelled.1
                               +:+ Str.nl +:+ Str.nl
                               +:+ "---" +:+ Str.nl +:+ Str.nl)
                            (zip
                               (map to_search_result
                                  (default []
                                     (RetrieveCommand.retrievalResults output)))
                               segments)) |}];
           MCPToolResponse.isError := None |}.
Proof.
  intros Hfound Hsegments Hsome.
  pose proof (Forall2_length _ _ _ Hsegments) as Hlength.
  rewrite length_map in Hlength.
  assert (default [] (RetrieveCommand.retrievalResults output) ≠ []) as Hresults.
  { intros Hnone. rewrite Hnone in Hlength. destruct segments; [congruence |].
    discriminate Hlength. }
  rewrite (search_report h w args output Hfound Hresults).
  unfold text_block, search_header, report_blocks.
  rewrite Hlength, !append_assoc.
  rewrite (imap_zip_ext _ _ _ Hsegments (result_block h)
             (λ index labelled,
                "## Result " +:+ Str.of_nat (index + 1) +:+ " (Score: "
                +:+ Fixed.toFixed (engine h) (SearchResult.score labelled.1) 3
                +:+ ")" +:+ Str.nl
                +:+ "**Source:** `"
                +:+ (if String.eqb labelled.2 EmptyString
                     then "unknown" else labelled.2)
                +:+ "`" +:+ Str.nl +:+ Str.nl
                +:+ SearchResult.content labelled.1 +:+ Str.nl +:+ Str.nl
                +:+ "---" +:+ Str.nl +:+ Str.nl)).
  - reflexivity.
  - intros index result segment Hsegment.
    apply (result_block_label h index result segment Hsegment).
Qed.

Lemma source_label_witness :
  settled finds_two
    (handleSearchTool Sample.host
       {| SearchArgs.query := "service"; SearchArgs.max_results := None |})
  = inr {| MCPToolResponse.content :=
             [{| ContentBlock.type := "text";
                 ContentBlock.text :=
                   "# Search Results for: " +:+ Str.dq +:+ "service" +:+ Str.dq
                   +:+ Str.nl +:+ Str.nl
                   +:+ "Found 2 relevant section(s):" +:+ Str.nl +:+ Str.nl
                   +:+ "## Result 1 (Score: 0.910)" +:+ Str.nl
                   +:+ "**Source:** `quickstart.md`" +:+ Str.nl +:+ Str.nl
                   +:+ "service Weather {}" +:+ Str.nl +:+ Str.nl
                   +:+ "---" +:+ Str.nl +:+ Str.nl
                   +:+ "## Result 2 (Score: 0.770)" +:+ Str.nl
                   +:+ "**Source:** `unknown`" +:+ Str.nl +:+ Str.nl
                   +:+ "Services" +:+ Str.nl +:+ Str.nl
                   +:+ "---" +:+ Str.nl +:+ Str.nl |}];
           MCPToolResponse.isError := None |}.
Proof.
  refine (source_label Sample.host finds_two
            {| SearchArgs.query := "service"; SearchArgs.max_results := None |}
            _ ["quickstart.md"; EmptyString] eq_refl _ _).
  - constructor; [| constructor; [| constructor]].
    + split; [reflexivity |]. right.
      exists "s3://docs-bucket/smithy-docs". reflexivity.
    + split; [reflexivity |]. left. reflexivity.
  - discriminate.
Defined.

(** ** Read *)

Lemma cleanPath_slash (p : string) : cleanPath (String Str.slash p) = cleanPath p.
Proof. reflexivity. Qed.

Lemma cleanPath_no_leading_slash (p rest : string) :
  cleanPath p ≠ String Str.slash rest.
Proof.
  unfold cleanPath. induction p as [| c p IH]; cbn; [discriminate |].
  destruct (Ascii.eqb c Str.slash) eqn:Hc; [exact IH |].
  intros Heq. injection Heq as -> _.
  rewrite Ascii.eqb_refl in Hc. discriminate Hc.
Qed.

(** C3. Reading [p] and reading ["/" + p] fetch the same key, the corpus
    namespace followed by a relative part that does not begin with a
    slash. *)
Theorem read_key_normalized (h : Host) (w : Collaborators) (p : string) :
  ∃ relative : string,
    sent w (handleReadTool h {| ReadArgs.file_path := p |})
    = [SentGetObject
         {| GetObjectCommand.Bucket := BUCKET_NAME (env h);
            GetObjectCommand.Key := "smithy-docs/" +:+ relative |}]
    ∧ sent w (handleReadTool h {| ReadArgs.file_path := "/" +:+ p |})
      = [SentGetObject
           {| GetObjectCommand.Bucket := BUCKET_NAME (env h);
              GetObjectCommand.Key := "smithy-docs/" +:+ relative |}]
    ∧ ∀ rest, relative ≠ "/" +:+ rest.
Proof.
  exists (cleanPath p). split; [| split].
  - rewrite sent_handleReadTool. reflexivity.
  - rewrite sent_handleReadTool. reflexivity.
  - intros rest. apply cleanPath_no_leading_slash.
Qed.

(** The same key for any number of leading slashes. *)
Example read_key_slashes :
  read_key "a/b.md" = "smithy-docs/a/b.md"
  ∧ read_key "/a/b.md" = "smithy-docs/a/b.md"
  ∧ read_key "///a/b.md" = "smithy-docs/a/b.md".
Proof. repeat split. Qed.

(** C6. A read that fetches the non-empty content [c] for the path [p]
    resolves with a response without [isError] whose text is the heading
    ["# " + p], an empty line, and [c] unchanged. *)
Theorem read_success_text (h : Host) (w : Collaborators) (p c : string) :
  c ≠ EmptyString →
  getObject w
    {| GetObjectCommand.Bucket := BUCKET_NAME (env h);
       GetObjectCommand.Key := read_key p |}
  = inr {| GetObjectCommand.Body := Some (inr c) |} →
  settled w (handleReadTool h {| ReadArgs.file_path := p |})
  = inr {| MCPToolResponse.content :=
             [{| ContentBlock.type := "text";
                 ContentBlock.text := "# " +:+ p +:+ Str.nl +:+ Str.nl +:+ c |}];
           MCPToolResponse.isError := None |}.
Proof.
  intros Hc Hget. expose_call. rewrite Hget. cbn.
  destruct c; [congruence | reflexivity].
Qed.

Lemma read_success_text_witness :
  settled Sample.store
    (handleReadTool Sample.host {| ReadArgs.file_path := "quickstart.md" |})
  = inr {| MCPToolResponse.content :=
             [{| ContentBlock.type := "text";
                 ContentBlock.text :=
                   "# quickstart.md" +:+ Str.nl +:+ Str.nl +:+ "# Hello" |}];
           MCPToolResponse.isError := None |}.
Proof.
  refine (read_success_text Sample.host Sample.store "quickstart.md" "# Hello"
            _ eq_refl).
  discriminate.
Defined.

(** ** One text block, always *)

(** C10. Whatever the arguments and whatever the collaborator answers
    (results, no result, a document, an empty or missing body, a
    rejection), each of the three handlers resolves with a response whose
    content is exactly one block, of type "text". *)
Theorem handlers_one_text_block (h : Host) (w : Collaborators)
  (sargs : SearchArgs.t) (rargs : ReadArgs.t) :
  one_text_block (settled w (handleSearchTool h sargs))
  ∧ one_text_block (settled w (handleReadTool h rargs))
  ∧ one_text_block (settled w (handleListTool h)).
Proof.
  split; [| split].
  - expose_call.
    destruct (retrieve w _) as [e | out]; cbn; [do 2 eexists; reflexivity |].
    destruct (Nat.eqb _ 0); do 2 eexists; reflexivity.
  - expose_call.
    destruct (getObject w _) as [e | [[[e | s] |]]]; cbn.
    + destruct (bool_decide _); do 2 eexists; reflexivity.
    + destruct (bool_decide _); do 2 eexists; reflexivity.
    + destruct (negb _); do 2 eexists; reflexivity.
    + do 2 eexists; reflexivity.
  - expose_call.
    destruct (listObjectsV2 w _) as [e | out]; cbn; [do 2 eexists; reflexivity |].
    destruct (Nat.eqb _ 0); cbn; [do 2 eexists; reflexivity |].
    destruct (build_tree h _ _) as [e | fileTree]; cbn; do 2 eexists; reflexivity.
Qed.

(** ** List *)

(** The groups are rendered in sorted order, each once. *)
Lemma sorted_keys_sorted (fileTree : gmap string (list string)) :
  Sorted String.le (sorted_keys fileTree)
  ∧ sorted_keys fileTree ≡ₚ map fst (map_to_list fileTree).
Proof.
  split.
  - apply (Sorted_merge_sort String.le).
  - apply merge_sort_Permutation.
Qed.

(** Each group holds the listed paths of its directory, in the order of
    the listing. *)
Lemma add_file_groups (h : Host) (fileTree fileTree' : gmap string (list string))
  (file : ListObjectsV2Command.Object) (dir : string) :
  add_file h fileTree file = inr fileTree' →
  fileTree' !!! dir
  = ((fileTree !!! dir : list string)
     ++ filter (λ path, dir_of path = dir) (listed_paths [file]))%list.
Proof.
  unfold add_file, listed_paths.
  destruct file as [[key |]]; cbn -[inherited dir_of];
    [| intros [= <-]; rewrite app_nil_r; reflexivity].
  destruct (Str.truthy key); cbn -[inherited dir_of];
    [| intros [= <-]; rewrite app_nil_r; reflexivity].
  set (path := Str.remove_first PREFIX key).
  destruct (fileTree !! dir_of path) as [files |] eqn:Hdir;
    [| destruct (inherited (dir_of path)); [discriminate |]].
  all: intros [= <-]; destruct (decide (dir_of path = dir)) as [<- | Hne].
  all: rewrite ?lookup_total_insert_eq, ?lookup_total_insert_ne, ?app_nil_r
         by exact Hne.
  all: rewrite ?(lookup_total_alt fileTree), ?Hdir; reflexivity.
Qed.

Lemma listed_paths_cons (file : ListObjectsV2Command.Object)
  (files : list ListObjectsV2Command.Object) :
  listed_paths (file :: files) = (listed_paths [file] ++ listed_paths files)%list.
Proof.
  unfold listed_paths. destruct file as [[key |]]; cbn; [| reflexivity].
  destruct (Str.truthy key); reflexivity.
Qed.

Lemma build_tree_groups (h : Host) (files : list ListObjectsV2Command.Object) :
  ∀ (fileTree fileTree' : gmap string (list string)) (dir : string),
    build_tree h fileTree files = inr fileTree' →
    fileTree' !!! dir
    = ((fileTree !!! dir : list string)
       ++ filter (λ path, dir_of path = dir) (listed_paths files))%list.
Proof.
  induction files as [| file files IH]; intros fileTree fileTree' dir.
  - intros [= <-]. cbn. rewrite ?filter_nil, app_nil_r. reflexivity.
  - cbn [build_tree].
    destruct (add_file h fileTree file) as [e | fileTree1] eqn:Hadd;
      [discriminate |].
    intros Hrest. rewrite (IH _ _ dir Hrest), (add_file_groups _ _ _ _ dir Hadd).
    rewrite (listed_paths_cons file files), filter_app, app_assoc. reflexivity.
Qed.

(** C5. For a listing of the three keys of [a.md], [b/c.md] and [b/d.md],
    received in any order, the list handler reports 3 files, renders the
    group "Root" with [a.md] first and the group "b" second, and lists
    [b/c.md] and [b/d.md] under "b" in the order in which their keys were
    received. *)
Theorem list_groups (h : Host) (w : Collaborators) (keys : list string) :
  keys ≡ₚ ["smithy-docs/a.md"; "smithy-docs/b/c.md"; "smithy-docs/b/d.md"] →
  listObjectsV2 w
    {| ListObjectsV2Command.Bucket := BUCKET_NAME (env h);
       ListObjectsV2Command.Prefix := "smithy-docs/" |}
  = inr (listing keys) →
  settled w (handleListTool h)
  = inr {| MCPToolResponse.content :=
             [{| ContentBlock.type := "text";
                 ContentBlock.text :=
                   "# Smithy Documentation Files" +:+ Str.nl +:+ Str.nl
                   +:+ "Total files: 3" +:+ Str.nl +:+ Str.nl
                   +:+ "## Root" +:+ Str.nl +:+ Str.nl
                   +:+ "- `a.md`" +:+ Str.nl +:+ Str.nl
                   +:+ "## b" +:+ Str.nl +:+ Str.nl
                   +:+ bullets
                         (List.filter (String.prefix "b/")
                            (map (Str.remove_first "smithy-docs/") keys))
                   +:+ Str.nl |}];
           MCPToolResponse.isError := None |}.
Proof.
  intros Hperm Hlist.
  symmetry in Hperm. apply permutations_Permutation in Hperm.
  set (orders := permutations _) in Hperm. vm_compute in orders. subst orders.
  expose_call. change PREFIX with "smithy-docs/". rewrite Hlist. clear Hlist.
  repeat (apply elem_of_cons in Hperm as [-> | Hperm]; [vm_compute; reflexivity |]).
  apply elem_of_nil in Hperm. destruct Hperm.
Qed.

Lemma list_groups_witness :
  settled
    (lists ["smithy-docs/b/d.md"; "smithy-docs/a.md"; "smithy-docs/b/c.md"])
    (handleListTool Sample.host)
  = inr {| MCPToolResponse.content :=
             [{| ContentBlock.type := "text";
                 ContentBlock.text :=
                   "# Smithy Documentation Files" +:+ Str.nl +:+ Str.nl
                   +:+ "Total files: 3" +:+ Str.nl +:+ Str.nl
                   +:+ "## Root" +:+ Str.nl +:+ Str.nl
                   +:+ "- `a.md`" +:+ Str.nl +:+ Str.nl
                   +:+ "## b" +:+ Str.nl +:+ Str.nl
                   +:+ "- `b/d.md`" +:+ Str.nl
                   +:+ "- `b/c.md`" +:+ Str.nl
                   +:+ Str.nl |}];
           MCPToolResponse.isError := None |}.
Proof.
  refine (list_groups Sample.host
            (lists ["smithy-docs/b/d.md"; "smithy-docs/a.md"; "smithy-docs/b/c.md"])
            ["smithy-docs/b/d.md"; "smithy-docs/a.md"; "smithy-docs/b/c.md"]
            _ eq_refl).
  etrans; [apply perm_swap | apply perm_skip, perm_swap].
Defined.

(** ** Dispatch *)

Lemma not_registered (name : string) :
  name ∉ registered →
  String.eqb name "search_smithy_docs" = false
  ∧ String.eqb name "read_smithy_doc" = false
  ∧ String.eqb name "list_smithy_topics" = false.
Proof.
  intros Hnot. repeat split; apply String.eqb_neq; intros ->; apply Hnot;
    unfold registered; set_solver.
Qed.

(** C2, as the code has it.  A [tools/call] whose name is none of the
    three registered identifiers calls no handler and no collaborator and
    resolves (nothing is thrown) with the HTTP response of status 400
    whose body is the JSON object with the one member "error", the text
    "Unknown tool: " followed by the name. *)
Theorem unknown_tool_rejected (h : Host) (w : Collaborators) (call : ToolCall.t) :
  ToolCall.name call ∉ registered →
  run w (handler h (tools_call call))
  = ([],
     inr {| LambdaResponse.statusCode := 400;
            LambdaResponse.headers := None;
            LambdaResponse.body :=
              "{" +:+ Json.quote "error" +:+ ":"
              +:+ Json.quote ("Unknown tool: " +:+ ToolCall.name call)
              +:+ "}" |}).
Proof.
  intros Hnot. destruct (not_registered _ Hnot) as (Hs & Hr & Hl).
  unfold handler, tools_call. cbn. rewrite Hs, Hr, Hl. reflexivity.
Qed.

Lemma unknown_tool_rejected_witness :
  run Sample.store
    (handler Sample.host
       (tools_call
          {| ToolCall.name := "bogus_tool";
             ToolCall.arguments :=
               {| ToolCall.query := EmptyString;
                  ToolCall.max_results := None;
                  ToolCall.file_path := EmptyString |} |}))
  = ([],
     inr {| LambdaResponse.statusCode := 400;
            LambdaResponse.headers := None;
            LambdaResponse.body :=
              "{" +:+ Str.dq +:+ "error" +:+ Str.dq +:+ ":"
              +:+ Str.dq +:+ "Unknown tool: bogus_tool" +:+ Str.dq +:+ "}" |}).
Proof.
  refine (unknown_tool_rejected Sample.host Sample.store
            {| ToolCall.name := "bogus_tool";
               ToolCall.arguments :=
                 {| ToolCall.query := EmptyString;
                    ToolCall.max_results := None;
                    ToolCall.file_path := EmptyString |} |} _).
  apply (bool_decide_unpack _). vm_compute. reflexivity.
Defined.

(** The body of a serialised tool response begins with its [content]
    member. *)
Lemma tool_response_body (r : MCPToolResponse.t) :
  ∃ rest, Json.stringify (json_of_response r)
          = "{" +:+ Str.dq +:+ "content" +:+ rest.
Proof.
  unfold json_of_response.
  destruct (MCPToolResponse.isError r); eexists; cbn; reflexivity.
Qed.

(** C2, as stated, fails: the answer to a call of "bogus_tool" has status
    400 and the body [{"error":"Unknown tool: bogus_tool"}], which is the
    serialisation of no tool response: there is no [content] and no
    [isError]. *)
Lemma unknown_tool_counterexample :
  settled Sample.store
    (handler Sample.host
       (tools_call
          {| ToolCall.name := "bogus_tool";
             ToolCall.arguments :=
               {| ToolCall.query := EmptyString;
                  ToolCall.max_results := None;
                  ToolCall.file_path := EmptyString |} |}))
  = inr {| LambdaResponse.statusCode := 400;
           LambdaResponse.headers := None;
           LambdaResponse.body :=
             "{" +:+ Str.dq +:+ "error" +:+ Str.dq +:+ ":"
             +:+ Str.dq +:+ "Unknown tool: bogus_tool" +:+ Str.dq +:+ "}" |}
  ∧ ∀ r : MCPToolResponse.t,
      Json.stringify (json_of_response r)
      ≠ "{" +:+ Str.dq +:+ "error" +:+ Str.dq +:+ ":"
        +:+ Str.dq +:+ "Unknown tool: bogus_tool" +:+ Str.dq +:+ "}".
Proof.
  split; [reflexivity |].
  intros r Heq. destruct (tool_response_body r) as [rest Hbody].
  rewrite Hbody in Heq. vm_compute in Heq. discriminate Heq.
Qed.

(** * Further properties *)

(** ** Comparison of doubles *)

Lemma SFcompare_antisym (x y : number) (c : comparison) :
  SFcompare x y = Some c → SFcompare y x = Some (CompOpp c).
Proof.
  destruct x as [s1 | s1 | | s1 m1 e1], y as [s2 | s2 | | s2 m2 e2];
    try destruct s1; try destruct s2; unfold SFcompare;
    try (intros [= <-]; reflexivity); try discriminate.
  - intros [= <-]. rewrite (Z.compare_antisym e1 e2).
    destruct (e1 ?= e2)%Z; cbn [CompOpp]; try reflexivity.
    rewrite (Pos.compare_cont_antisym m1 m2 Eq). reflexivity.
  - intros [= <-]. rewrite (Z.compare_antisym e1 e2).
    destruct (e1 ?= e2)%Z; cbn [CompOpp]; try reflexivity.
    rewrite (Pos.compare_cont_antisym m1 m2 Eq). reflexivity.
Qed.

Lemma SFcompare_defined (x y : number) :
  is_nan x = false → is_nan y = false → ∃ c, SFcompare x y = Some c.
Proof.
  destruct x, y; unfold SFcompare; intros Hx Hy; try discriminate; eauto.
Qed.

(** Not above means at most, for numbers that can be compared. *)
Lemma not_above_at_most (x y : number) :
  is_nan x = false → is_nan y = false → SFltb y x = false → SFleb x y = true.
Proof.
  intros Hx Hy. destruct (SFcompare_defined y x Hy Hx) as [c Hc].
  unfold SFltb, SFleb. rewrite Hc, (SFcompare_antisym y x c Hc).
  destruct c; cbn; congruence.
Qed.

Lemma at_most_not_above (x y : number) :
  SFleb x y = true → SFltb y x = false.
Proof.
  unfold SFltb, SFleb. destruct (SFcompare x y) as [c |] eqn:Hc; [| discriminate].
  rewrite (SFcompare_antisym x y c Hc). destruct c; cbn; congruence.
Qed.

Lemma or_else_truthy (x : option number) : truthy (Num.or_else x five) = true.
Proof.
  unfold Num.or_else. destruct x as [v |]; [| reflexivity].
  destruct (truthy v) eqn:Hv; [exact Hv | reflexivity].
Qed.

Lemma truthy_not_nan (x : number) : truthy x = true → is_nan x = false.
Proof. destruct x; cbn; congruence. Qed.

Lemma truthy_not_zero (x : number) : truthy x = true → is_zero x = false.
Proof. destruct x; cbn; congruence. Qed.

Lemma Math_min_ten (x : number) :
  is_nan x = false → Math_min x ten = if SFltb ten x then ten else x.
Proof.
  intros Hnan. unfold Math_min. rewrite min_step_from_infinity by exact Hnan.
  unfold min_step. rewrite Hnan. reflexivity.
Qed.

(** ** Search: the limit in general *)

Lemma effective_limit_in_range (query : string) (x : number) :
  SFleb Num.one x = true →
  SFleb x ten = true →
  effective_limit {| SearchArgs.query := query; SearchArgs.max_results := Some x |}
  = x.
Proof.
  intros Hlow Hhigh.
  unfold effective_limit, Num.or_else, SearchArgs.max_results.
  assert (truthy x = true) as Hx.
  { destruct x as [s | s | | s m e]; try reflexivity; discriminate Hlow. }
  rewrite Hx, (Math_min_ten x (truthy_not_nan x Hx)),
    (at_most_not_above x ten Hhigh).
  reflexivity.
Qed.

(** X1. A [max_results] from 1 to 10 is the limit sent, unchanged. *)
Theorem search_limit_in_range (h : Host) (w : Collaborators) (query : string)
  (x : number) :
  SFleb Num.one x = true →
  SFleb x ten = true →
  sent w (handleSearchTool h
            {| SearchArgs.query := query; SearchArgs.max_results := Some x |})
  = [SentRetrieve
       {| RetrieveCommand.knowledgeBaseId := KNOWLEDGE_BASE_ID (env h);
          RetrieveCommand.retrievalQuery_text := query;
          RetrieveCommand.numberOfResults := x |}].
Proof.
  intros Hlow Hhigh.
  rewrite sent_handleSearchTool, effective_limit_in_range by assumption.
  reflexivity.
Qed.

Lemma search_limit_in_range_witness :
  sent Sample.store
    (handleSearchTool Sample.host
       {| SearchArgs.query := "service";
          SearchArgs.max_results := Some (S754_finite false 6755399441055744 (-51)) |})
  = [SentRetrieve
       {| RetrieveCommand.knowledgeBaseId := "KB0001";
          RetrieveCommand.retrievalQuery_text := "service";
          RetrieveCommand.numberOfResults :=
            S754_finite false 6755399441055744 (-51) |}].
Proof.
  exact (search_limit_in_range Sample.host Sample.store "service"
           (S754_finite false 6755399441055744 (-51)) eq_refl eq_refl).
Defined.

(** X2. Whatever [max_results] is, the limit sent is a number (not NaN),
    is not zero and is at most 10. *)
Theorem search_limit_bounded (h : Host) (w : Collaborators) (args : SearchArgs.t) :
  ∃ limit : number,
    sent w (handleSearchTool h args)
    = [SentRetrieve
         {| RetrieveCommand.knowledgeBaseId := KNOWLEDGE_BASE_ID (env h);
            RetrieveCommand.retrievalQuery_text := SearchArgs.query args;
            RetrieveCommand.numberOfResults := limit |}]
    ∧ is_nan limit = false
    ∧ is_zero limit = false
    ∧ SFleb limit ten = true.
Proof.
  exists (effective_limit args). split; [apply sent_handleSearchTool |].
  unfold effective_limit.
  pose proof (or_else_truthy (SearchArgs.max_results args)) as Hv.
  set (v := Num.or_else (SearchArgs.max_results args) five) in *.
  rewrite (Math_min_ten v (truthy_not_nan v Hv)).
  destruct (SFltb ten v) eqn:Hlt.
  - repeat split.
  - split; [apply truthy_not_nan, Hv |].
    split; [apply truthy_not_zero, Hv |].
    apply not_above_at_most; [apply truthy_not_nan, Hv | reflexivity | exact Hlt].
Qed.

(** ** Search: what is sent and what is answered *)

(** X3. Each handler sends exactly one command, to its own collaborator,
    whatever the collaborator answers: the search handler never calls the
    store, the read and list handlers never call the knowledge base. *)
Theorem handlers_send_one_command (h : Host) (w : Collaborators)
  (sargs : SearchArgs.t) (rargs : ReadArgs.t) :
  (∃ limit,
     sent w (handleSearchTool h sargs)
     = [SentRetrieve
          {| RetrieveCommand.knowledgeBaseId := KNOWLEDGE_BASE_ID (env h);
             RetrieveCommand.retrievalQuery_text := SearchArgs.query sargs;
             RetrieveCommand.numberOfResults := limit |}])
  ∧ (∃ key,
       sent w (handleReadTool h rargs)
       = [SentGetObject
            {| GetObjectCommand.Bucket := BUCKET_NAME (env h);
               GetObjectCommand.Key := key |}])
  ∧ sent w (handleListTool h)
    = [SentListObjectsV2
         {| ListObjectsV2Command.Bucket := BUCKET_NAME (env h);
            ListObjectsV2Command.Prefix := "smithy-docs/" |}].
Proof.
  split; [| split].
  - eexists. apply sent_handleSearchTool.
  - eexists. apply sent_handleReadTool.
  - apply sent_handleListTool.
Qed.

(** X4. The search handler flags an error exactly when the retrieval call
    is rejected; every answer of the knowledge base, also one without
    results, gives a response without [isError]. *)
Theorem search_error_iff_rejected (h : Host) (w : Collaborators)
  (args : SearchArgs.t) :
  ∃ r : MCPToolResponse.t,
    settled w (handleSearchTool h args) = inr r
    ∧ MCPToolResponse.isError r
      = match retrieve w
                {| RetrieveCommand.knowledgeBaseId := KNOWLEDGE_BASE_ID (env h);
                   RetrieveCommand.retrievalQuery_text := SearchArgs.query args;
                   RetrieveCommand.numberOfResults := effective_limit args |}
        with
        | inl _ => Some true
        | inr _ => None
        end.
Proof.
  expose_call. destruct (retrieve w _) as [e | out]; cbn.
  - eexists. split; reflexivity.
  - destruct (Nat.eqb _ 0); eexists; split; reflexivity.
Qed.

(** X5. With at least one result the search handler answers with the
    header that names the query and the number of results, followed by one
    block per result, in the order in which the knowledge base returned
    them and numbered from 1. *)
Theorem search_results_reported (h : Host) (w : Collaborators)
  (args : SearchArgs.t) (output : RetrieveCommand.Output) :
  retrieve w
    {| RetrieveCommand.knowledgeBaseId := KNOWLEDGE_BASE_ID (env h);
       RetrieveCommand.retrievalQuery_text := SearchArgs.query args;
       RetrieveCommand.numberOfResults := effective_limit args |}
  = inr output →
  default [] (RetrieveCommand.retrievalResults output) ≠ [] →
  settled w (handleSearchTool h args)
  = inr {| MCPToolResponse.content :=
             [{| ContentBlock.type := "text";
                 ContentBlock.text :=
                   "# Search Results for: " +:+ Str.dq +:+ SearchArgs.query args
                   +:+ Str.dq +:+ Str.nl +:+ Str.nl
                   +:+ "Found "
                   +:+ Str.of_nat
                         (length
                            (default []
                               (RetrieveCommand.retrievalResults output)))
                   +:+ " relevant section(s):" +:+ Str.nl +:+ Str.nl
                   +:+ foldr String.append EmptyString
                         (imap (λ index result, result_block h index result)
                            (map to_search_result
                               (default []
                                  (RetrieveCommand.retrievalResults output)))) |}];
           MCPToolResponse.isError := None |}.
Proof.
  intros Hfound Hsome. rewrite (search_report h w args output Hfound Hsome).
  unfold text_block, search_header, report_blocks.
  rewrite !append_assoc. reflexivity.
Qed.

Lemma search_results_reported_witness :
  settled finds_two
    (handleSearchTool Sample.host
       {| SearchArgs.query := "traits"; SearchArgs.max_results := None |})
  = inr {| MCPToolResponse.content :=
             [{| ContentBlock.type := "text";
                 ContentBlock.text :=
                   "# Search Results for: " +:+ Str.dq +:+ "traits" +:+ Str.dq
                   +:+ Str.nl +:+ Str.nl
                   +:+ "Found 2 relevant section(s):" +:+ Str.nl +:+ Str.nl
                   +:+ "## Result 1 (Score: 0.910)" +:+ Str.nl
                   +:+ "**Source:** `quickstart.md`" +:+ Str.nl +:+ Str.nl
                   +:+ "service Weather {}" +:+ Str.nl +:+ Str.nl
                   +:+ "---" +:+ Str.nl +:+ Str.nl
                   +:+ "## Result 2 (Score: 0.770)" +:+ Str.nl
                   +:+ "**Source:** `unknown`" +:+ Str.nl +:+ Str.nl
                   +:+ "Services" +:+ Str.nl +:+ Str.nl
                   +:+ "---" +:+ Str.nl +:+ Str.nl |}];
           MCPToolResponse.isError := None |}.
Proof.
  refine (search_results_reported Sample.host finds_two
            {| SearchArgs.query := "traits"; SearchArgs.max_results := None |}
            _ eq_refl _).
  discriminate.
Defined.

(** X6. The source label of a result is never empty and never contains a
    slash. *)
Theorem source_label_never_empty (result : SearchResult.t) :
  fileName result ≠ EmptyString ∧ occurs Str.slash (fileName result) = false.
Proof.
  unfold fileName.
  destruct (final_segment_exists
              (SearchResult.s3Uri (SearchResult.location result)))
    as [segment Hsegment].
  rewrite (last_split_final_segment _ _ Hsegment). cbn [default from_option id].
  destruct Hsegment as [Hfree _].
  destruct segment as [| c segment]; cbn [Str.or_else Str.truthy].
  - split; [discriminate | reflexivity].
  - split; [discriminate | exact Hfree].
Qed.

(** ** bedrock-client.ts *)



(** ** Read: the other answers *)

(** X8. The read handler answers without [isError] exactly when the store
    returns a body whose text is not empty. *)
Theorem read_success_iff (h : Host) (w : Collaborators) (args : ReadArgs.t) :
  ∃ r : MCPToolResponse.t,
    settled w (handleReadTool h args) = inr r
    ∧ (MCPToolResponse.isError r = None
       ↔ ∃ c : string,
           c ≠ EmptyString
           ∧ getObject w
               {| GetObjectCommand.Bucket := BUCKET_NAME (env h);
                  GetObjectCommand.Key := read_key (ReadArgs.file_path args) |}
             = inr {| GetObjectCommand.Body := Some (inr c) |}).
Proof.
  expose_call. destruct (getObject w _) as [e | [[[e | c] |]]]; cbn.
  - destruct (bool_decide _); eexists; (split; [reflexivity |]); cbn;
      (split; [discriminate | intros (c & _ & [=])]).
  - destruct (bool_decide _); eexists; (split; [reflexivity |]); cbn;
      (split; [discriminate | intros (c & _ & [=])]).
  - destruct c as [| a c]; cbn; eexists; (split; [reflexivity |]); cbn.
    + split; [discriminate | intros (c & Hc & [= <-]); congruence].
    + split; [intros _; eexists; split; [| reflexivity]; discriminate | reflexivity].
  - eexists. split; [reflexivity |]. cbn.
    split; [discriminate | intros (c & _ & [=])].
Qed.

(** X9. A document without body, or whose body is the empty text, is
    reported as found but empty, with [isError: true]. *)
Theorem read_empty_reported (h : Host) (w : Collaborators) (p : string)
  (body : option (Thrown + string)) :
  body = None ∨ body = Some (inr EmptyString) →
  getObject w
    {| GetObjectCommand.Bucket := BUCKET_NAME (env h);
       GetObjectCommand.Key := read_key p |}
  = inr {| GetObjectCommand.Body := body |} →
  settled w (handleReadTool h {| ReadArgs.file_path := p |})
  = inr {| MCPToolResponse.content :=
             [{| ContentBlock.type := "text";
                 ContentBlock.text :=
                   "Document found but content is empty: " +:+ p |}];
           MCPToolResponse.isError := Some true |}.
Proof.
  intros Hbody Hget. expose_call. rewrite Hget.
  destruct Hbody as [-> | ->]; reflexivity.
Qed.

Lemma read_empty_reported_witness :
  settled
    {| retrieve := retrieve Sample.store;
       getObject := λ _, inr {| GetObjectCommand.Body := None |};
       listObjectsV2 := listObjectsV2 Sample.store |}
    (handleReadTool Sample.host {| ReadArgs.file_path := "index.md" |})
  = inr {| MCPToolResponse.content :=
             [{| ContentBlock.type := "text";
                 ContentBlock.text :=
                   "Document found but content is empty: index.md" |}];
           MCPToolResponse.isError := Some true |}.
Proof.
  exact (read_empty_reported Sample.host
           {| retrieve := retrieve Sample.store;
              getObject := λ _, inr {| GetObjectCommand.Body := None |};
              listObjectsV2 := listObjectsV2 Sample.store |}
           "index.md" None (or_introl eq_refl) eq_refl).
Defined.

(** X10. A failure other than [NoSuchKey], of the fetch or of reading the
    body, is reported as "Error reading document: " followed by the
    message of the error, or by "Unknown error" for a thrown object that
    is not an [Error]. *)
Theorem read_failure_reported (h : Host) (w : Collaborators) (p : string)
  (error : Thrown) :
  getObject w
    {| GetObjectCommand.Bucket := BUCKET_NAME (env h);
       GetObjectCommand.Key := read_key p |}
  = inl error
  ∨ getObject w
      {| GetObjectCommand.Bucket := BUCKET_NAME (env h);
         GetObjectCommand.Key := read_key p |}
    = inr {| GetObjectCommand.Body := Some (inl error) |} →
  error_name error ≠ Some "NoSuchKey" →
  settled w (handleReadTool h {| ReadArgs.file_path := p |})
  = inr {| MCPToolResponse.content :=
             [{| ContentBlock.type := "text";
                 ContentBlock.text :=
                   "Error reading document: "
                   +:+ match error with
                       | ErrorObject _ message => message
                       | OtherObject _ => "Unknown error"
                       end |}];
           MCPToolResponse.isError := Some true |}.
Proof.
  intros Hget Hname. expose_call.
  destruct Hget as [-> | ->]; cbn; rewrite bool_decide_eq_false_2 by exact Hname;
    destruct error; reflexivity.
Qed.

Lemma read_failure_reported_witness :
  settled Sample.down
    (handleReadTool Sample.host {| ReadArgs.file_path := "index.md" |})
  = inr {| MCPToolResponse.content :=
             [{| ContentBlock.type := "text";
                 ContentBlock.text := "Error reading document: Access Denied" |}];
           MCPToolResponse.isError := Some true |}.
Proof.
  refine (read_failure_reported Sample.host Sample.down "index.md"
            (ErrorObject "AccessDenied" "Access Denied") (or_introl eq_refl) _).
  discriminate.
Defined.

(** ** List: the other answers *)

(** X11. A listing without objects ([Contents] missing or empty) is not an
    error: the answer says that no file was found. *)
Theorem list_empty_reported (h : Host) (w : Collaborators)
  (output : ListObjectsV2Command.Output) :
  listObjectsV2 w
    {| ListObjectsV2Command.Bucket := BUCKET_NAME (env h);
       ListObjectsV2Command.Prefix := "smithy-docs/" |}
  = inr output →
  default [] (ListObjectsV2Command.Contents output) = [] →
  settled w (handleListTool h)
  = inr {| MCPToolResponse.content :=
             [{| ContentBlock.type := "text";
                 ContentBlock.text :=
                   "No documentation files found. The knowledge base may not be populated yet." |}];
           MCPToolResponse.isError := None |}.
Proof.
  intros Hlist Hempty. expose_call. change PREFIX with "smithy-docs/".
  rewrite Hlist. cbn. rewrite Hempty. reflexivity.
Qed.

Lemma list_empty_reported_witness :
  settled (lists []) (handleListTool Sample.host)
  = inr {| MCPToolResponse.content :=
             [{| ContentBlock.type := "text";
                 ContentBlock.text :=
                   "No documentation files found. The knowledge base may not be populated yet." |}];
           MCPToolResponse.isError := None |}.
Proof.
  exact (list_empty_reported Sample.host (lists []) (listing []) eq_refl eq_refl).
Defined.

(** X12. A rejected listing is reported as "Error listing topics: "
    followed by the message of the error, or by "Unknown error". *)
Theorem list_failure_reported (h : Host) (w : Collaborators) (error : Thrown) :
  listObjectsV2 w
    {| ListObjectsV2Command.Bucket := BUCKET_NAME (env h);
       ListObjectsV2Command.Prefix := "smithy-docs/" |}
  = inl error →
  settled w (handleListTool h)
  = inr {| MCPToolResponse.content :=
             [{| ContentBlock.type := "text";
                 ContentBlock.text :=
                   "Error listing topics: "
                   +:+ match error with
                       | ErrorObject _ message => message
                       | OtherObject _ => "Unknown error"
                       end |}];
           MCPToolResponse.isError := Some true |}.
Proof.
  intros Hlist. expose_call. change PREFIX with "smithy-docs/".
  rewrite Hlist. destruct error; reflexivity.
Qed.

Lemma list_failure_reported_witness :
  settled Sample.down (handleListTool Sample.host)
  = inr {| MCPToolResponse.content :=
             [{| ContentBlock.type := "text";
                 ContentBlock.text := "Error listing topics: Unknown error" |}];
           MCPToolResponse.isError := Some true |}.
Proof.
  exact (list_failure_reported Sample.host Sample.down (OtherObject None) eq_refl).
Defined.

(** ** List: directories *)

Lemma join_split (sep : ascii) (s : string) :
  Str.join (String sep EmptyString) (Str.split sep s) = s.
Proof.
  induction s as [| c s IH]; [reflexivity |].
  cbn [Str.split]. pose proof (split_nonempty sep s) as Hne.
  destruct (Ascii.eqb c sep) eqn:Hc.
  - apply Ascii.eqb_eq in Hc as ->.
    destruct (Str.split sep s) as [| p ps]; [congruence |].
    cbn [Str.join] in *. rewrite IH. reflexivity.
  - destruct (Str.split sep s) as [| p ps]; [congruence |].
    destruct ps as [| q qs]; cbn [Str.join] in *.
    + rewrite IH. reflexivity.
    + rewrite append_cons, IH. reflexivity.
Qed.

Lemma removelast_snoc {A : Type} (l : list A) (x : A) :
  removelast (l ++ [x]) = l.
Proof.
  induction l as [| y l IH]; [reflexivity |].
  cbn. rewrite IH. destruct (l ++ [x])%list eqn:Heq; [| reflexivity].
  destruct l; discriminate.
Qed.

(** X13. A path without slash is listed under "Root"; a path [dir/name],
    where [name] has no slash, is listed under [dir], all of what precedes
    its last slash. *)
Theorem dir_of_path (dir name : string) :
  occurs Str.slash name = false →
  dir_of name = "Root" ∧ dir_of (dir +:+ "/" +:+ name) = dir.
Proof.
  intros Hname. unfold dir_of. split.
  - rewrite split_whole by exact Hname. reflexivity.
  - change (dir +:+ "/" +:+ name) with (dir +:+ String Str.slash name).
    rewrite split_at_sep, (split_whole _ name Hname).
    pose proof (split_nonempty Str.slash dir) as Hne.
    rewrite length_app, Nat.add_1_r, removelast_snoc.
    destruct (Str.split Str.slash dir) as [| p ps] eqn:Hdir; [congruence |].
    cbn [length Nat.eqb]. rewrite <- Hdir. apply (join_split Str.slash).
Qed.

Lemma dir_of_path_witness :
  dir_of "index.md" = "Root" ∧ dir_of ("guides/style" +:+ "/" +:+ "index.md") = "guides/style".
Proof. exact (dir_of_path "guides/style" "index.md" eq_refl). Defined.

(** ** List: the groups in general *)

Lemma listed_paths_single (file : ListObjectsV2Command.Object) :
  listed_paths [file] = []
  ∨ ∃ key, ListObjectsV2Command.Key file = Some key
           ∧ Str.truthy key = true
           ∧ listed_paths [file] = [Str.remove_first PREFIX key].
Proof.
  unfold listed_paths. destruct file as [[key |]]; cbn; [| left; reflexivity].
  destruct (Str.truthy key) eqn:Hkey; [| left; reflexivity].
  right. exists key. repeat split; done.
Qed.

(** The directories of the tree are those it had and those of the paths
    entered. *)
Lemma add_file_keys (h : Host) (fileTree fileTree' : gmap string (list string))
  (file : ListObjectsV2Command.Object) (dir : string) :
  add_file h fileTree file = inr fileTree' →
  is_Some (fileTree' !! dir)
  ↔ is_Some (fileTree !! dir) ∨ ∃ p, p ∈ listed_paths [file] ∧ dir_of p = dir.
Proof.
  unfold add_file.
  destruct (listed_paths_single file) as [Hnone | (key & Hkey & Htruthy & Hsome)].
  - rewrite Hnone. destruct (ListObjectsV2Command.Key file) as [key |] eqn:Hkey.
    + destruct (Str.truthy key) eqn:Htruthy; cbn [negb].
      * unfold listed_paths in Hnone. destruct file as [k]. cbn in Hkey, Hnone.
        subst k. rewrite Htruthy in Hnone. discriminate.
      * intros [= <-]. split; [auto |]. intros [? | (p & Hp & _)]; [done |].
        apply elem_of_nil in Hp. done.
    + intros [= <-]. split; [auto |]. intros [? | (p & Hp & _)]; [done |].
      apply elem_of_nil in Hp. done.
  - rewrite Hkey, Htruthy, Hsome. cbn [negb].
    set (path := Str.remove_first PREFIX key).
    assert ((∃ p, p ∈ [path] ∧ dir_of p = dir) ↔ dir_of path = dir) as ->.
    { split; [intros (p & Hp & <-); apply list_elem_of_singleton in Hp as ->; done |].
      intros <-. exists path. split; [apply list_elem_of_singleton |]; done. }
    destruct (fileTree !! dir_of path) as [files |] eqn:Hdir;
      [| destruct (inherited (dir_of path)); [discriminate |]].
    all: intros [= <-]; rewrite lookup_insert_is_Some.
    all: split; [intros [<- | [_ ?]]; auto | intros [? | <-]; [| auto]].
    all: destruct (decide (dir_of path = dir)); auto.
Qed.

Lemma build_tree_keys (h : Host) (files : list ListObjectsV2Command.Object) :
  ∀ (fileTree fileTree' : gmap string (list string)) (dir : string),
    build_tree h fileTree files = inr fileTree' →
    is_Some (fileTree' !! dir)
    ↔ is_Some (fileTree !! dir) ∨ ∃ p, p ∈ listed_paths files ∧ dir_of p = dir.
Proof.
  induction files as [| file files IH]; intros fileTree fileTree' dir.
  - intros [= <-]. split; [auto |]. intros [? | (p & Hp & _)]; [done |].
    apply elem_of_nil in Hp. done.
  - cbn [build_tree].
    destruct (add_file h fileTree file) as [e | fileTree1] eqn:Hadd;
      [discriminate |].
    intros Hrest. rewrite (IH _ _ dir Hrest), (add_file_keys _ _ _ _ dir Hadd).
    rewrite (listed_paths_cons file files).
    split.
    + intros [[Hold | (p & Hp & Hdir)] | (p & Hp & Hdir)]; [auto | |];
        right; exists p; (split; [apply elem_of_app; auto | exact Hdir]).
    + intros [Hold | (p & Hp & Hdir)]; [auto |].
      apply elem_of_app in Hp as [Hp | Hp]; eauto.
Qed.

(** Without a directory named like a property of [Object.prototype], the
    tree is built. *)
Lemma build_tree_succeeds (h : Host) (files : list ListObjectsV2Command.Object) :
  ∀ fileTree : gmap string (list string),
    Forall (λ p, inherited (dir_of p) = false) (listed_paths files) →
    ∃ fileTree', build_tree h fileTree files = inr fileTree'.
Proof.
  induction files as [| file files IH]; intros fileTree Hfree.
  - eexists. reflexivity.
  - rewrite (listed_paths_cons file files) in Hfree.
    apply Forall_app in Hfree as [Hfile Hfiles]. cbn [build_tree].
    assert (∃ fileTree1, add_file h fileTree file = inr fileTree1) as [fileTree1 ->].
    { unfold add_file.
      destruct (listed_paths_single file) as [Hnone | (key & Hkey & Htruthy & Hsome)].
      - destruct (ListObjectsV2Command.Key file) as [key |] eqn:Hkey; [| eauto].
        destruct (Str.truthy key) eqn:Htruthy; cbn [negb]; [| eauto].
        unfold listed_paths in Hnone. destruct file as [k]. cbn in Hkey, Hnone.
        subst k. rewrite Htruthy in Hnone. discriminate.
      - rewrite Hkey, Htruthy. cbn [negb]. rewrite Hsome in Hfile.
        apply Forall_inv in Hfile. cbv beta in Hfile.
        destruct (fileTree !! _); [eauto |]. rewrite Hfile. eauto. }
    apply IH, Hfiles.
Qed.

Lemma foldl_append_map {A : Type} (f : A → string) (xs : list A) :
  ∀ init : string,
    foldl (λ s x, s +:+ f x) init xs
    = init +:+ foldr (λ x rest, f x +:+ rest) EmptyString xs.
Proof.
  induction xs as [| x xs IH]; intros init; cbn [foldl foldr].
  - rewrite append_nil_r. reflexivity.
  - rewrite IH, append_assoc. reflexivity.
Qed.

Lemma group_block_bullets (dir : string) (files : list string) :
  group_block dir files
  = "## " +:+ dir +:+ Str.nl +:+ Str.nl +:+ bullets files +:+ Str.nl.
Proof.
  unfold group_block.
  rewrite (foldl_append_map (λ file, "- `" +:+ file +:+ "`" +:+ Str.nl)).
  rewrite !append_assoc. do 5 f_equal. unfold bullets.
  induction files as [| file files IH]; cbn [foldr]; [reflexivity |].
  rewrite IH, !append_assoc. reflexivity.
Qed.

Lemma render_tree_text (count : nat) (fileTree : gmap string (list string)) :
  render_tree count fileTree
  = list_header count
    +:+ foldr
          (λ dir rest,
             "## " +:+ dir +:+ Str.nl +:+ Str.nl
             +:+ bullets (fileTree !!! dir) +:+ Str.nl +:+ rest)
          EmptyString (sorted_keys fileTree).
Proof.
  unfold render_tree.
  rewrite (foldl_append_map (λ dir, group_block dir (fileTree !!! dir))).
  f_equal. induction (sorted_keys fileTree) as [| dir dirs IH]; cbn [foldr];
    [reflexivity |].
  rewrite IH, group_block_bullets, !append_assoc. reflexivity.
Qed.

(** X14. When no listed path lies in a directory named like a property of
    [Object.prototype], the list handler answers with the count of the
    listed objects and one block per directory: the directories are those
    of the listed paths, each once, in sorted order, and each block has
    the paths of its directory in the order of the listing. *)
Theorem list_grouped (h : Host) (w : Collaborators)
  (output : ListObjectsV2Command.Output) :
  listObjectsV2 w
    {| ListObjectsV2Command.Bucket := BUCKET_NAME (env h);
       ListObjectsV2Command.Prefix := "smithy-docs/" |}
  = inr output →
  default [] (ListObjectsV2Command.Contents output) ≠ [] →
  Forall (λ path, inherited (dir_of path) = false)
    (listed_paths (default [] (ListObjectsV2Command.Contents output))) →
  ∃ dirs : list string,
    Sorted String.le dirs
    ∧ NoDup dirs
    ∧ (∀ dir, dir ∈ dirs
              ↔ ∃ path,
                  path ∈ listed_paths
                           (default [] (ListObjectsV2Command.Contents output))
                  ∧ dir_of path = dir)
    ∧ settled w (handleListTool h)
      = inr {| MCPToolResponse.content :=
                 [{| ContentBlock.type := "text";
                     ContentBlock.text :=
                       listing_text
                         (length (default []
                                    (ListObjectsV2Command.Contents output)))
                         dirs
                         (listed_paths
                            (default []
                               (ListObjectsV2Command.Contents output))) |}];
               MCPToolResponse.isError := None |}.
Proof.
  intros Hlist Hsome Hfree.
  set (files := default [] (ListObjectsV2Command.Contents output)) in *.
  destruct (build_tree_succeeds h files ∅ Hfree) as [fileTree Htree].
  exists (sorted_keys fileTree).
  destruct (sorted_keys_sorted fileTree) as [Hsorted Hperm].
  split; [exact Hsorted |]. split; [| split].
  - rewrite Hperm. apply NoDup_fst_map_to_list.
  - intros dir. rewrite Hperm. split.
    + intros Hin. apply list_elem_of_fmap in Hin as ([d fs] & -> & Hin).
      apply elem_of_map_to_list in Hin.
      destruct (proj1 (build_tree_keys h files ∅ fileTree d Htree))
        as [[? Hempty] | Hex]; [eauto | | exact Hex].
      rewrite lookup_empty in Hempty. discriminate.
    + intros Hex.
      destruct (proj2 (build_tree_keys h files ∅ fileTree dir Htree)
                  (or_intror Hex)) as [fs Hfs].
      apply list_elem_of_fmap. exists (dir, fs). split; [reflexivity |].
      apply elem_of_map_to_list, Hfs.
  - expose_call. change PREFIX with "smithy-docs/". rewrite Hlist.
    cbn [run bind try_catch settle fst snd]. fold files.
    destruct files as [| file files'] eqn:Hfiles; [congruence |].
    cbn [length Nat.eqb]. rewrite <- Hfiles in *. rewrite Htree.
    cbn [run bind try_catch settle fst snd].
    rewrite render_tree_text. unfold listing_text, list_header, text_block.
    do 3 f_equal. rewrite !append_assoc. do 8 f_equal.
    clear Hsorted Hperm.
    induction (sorted_keys fileTree) as [| dir dirs IH]; cbn [foldr];
      [reflexivity |].
    rewrite IH, (build_tree_groups h files ∅ fileTree dir Htree).
    rewrite lookup_total_empty. reflexivity.
Qed.

Lemma list_grouped_witness :
  ∃ dirs : list string,
    Sorted String.le dirs
    ∧ NoDup dirs
    ∧ (∀ dir, dir ∈ dirs
              ↔ ∃ path,
                  path ∈ ["spec/z.md"; "index.md"; "spec/a.md"] ∧ dir_of path = dir)
    ∧ settled
        (lists ["smithy-docs/spec/z.md"; "smithy-docs/index.md";
                "smithy-docs/spec/a.md"])
        (handleListTool Sample.host)
      = inr {| MCPToolResponse.content :=
                 [{| ContentBlock.type := "text";
                     ContentBlock.text :=
                       listing_text 3 dirs ["spec/z.md"; "index.md"; "spec/a.md"] |}];
               MCPToolResponse.isError := None |}.
Proof.
  refine (list_grouped Sample.host
            (lists ["smithy-docs/spec/z.md"; "smithy-docs/index.md";
                    "smithy-docs/spec/a.md"])
            (listing ["smithy-docs/spec/z.md"; "smithy-docs/index.md";
                      "smithy-docs/spec/a.md"])
            eq_refl _ _).
  - discriminate.
  - repeat constructor.
Defined.

(** The listing of the witness, written out. *)
Example list_three_files :
  settled
    (lists ["smithy-docs/spec/z.md"; "smithy-docs/index.md"; "smithy-docs/spec/a.md"])
    (handleListTool Sample.host)
  = inr {| MCPToolResponse.content :=
             [{| ContentBlock.type := "text";
                 ContentBlock.text :=
                   "# Smithy Documentation Files" +:+ Str.nl +:+ Str.nl
                   +:+ "Total files: 3" +:+ Str.nl +:+ Str.nl
                   +:+ "## Root" +:+ Str.nl +:+ Str.nl
                   +:+ "- `index.md`" +:+ Str.nl +:+ Str.nl
                   +:+ "## spec" +:+ Str.nl +:+ Str.nl
                   +:+ "- `spec/z.md`" +:+ Str.nl
                   +:+ "- `spec/a.md`" +:+ Str.nl +:+ Str.nl |}];
           MCPToolResponse.isError := None |}.
Proof. vm_compute. reflexivity. Qed.

(** A directory named like a property of [Object.prototype] is not
    entered into the tree: the call of [push] throws. *)
Lemma build_tree_fails (h : Host) (files : list ListObjectsV2Command.Object) :
  ∀ fileTree : gmap string (list string),
    (∀ dir, is_Some (fileTree !! dir) → inherited dir = false) →
    Exists (λ path, inherited (dir_of path) = true) (listed_paths files) →
    build_tree h fileTree files = inl (TypeError h NotAFunction).
Proof.
  induction files as [| file files IH]; intros fileTree Hkeys Hbad.
  - apply Exists_nil in Hbad. destruct Hbad.
  - rewrite (listed_paths_cons file files) in Hbad. cbn [build_tree].
    destruct (add_file h fileTree file) as [e | fileTree1] eqn:Hadd.
    + f_equal. unfold add_file in Hadd.
      destruct (ListObjectsV2Command.Key file) as [key |]; [| discriminate].
      destruct (negb (Str.truthy key)); [discriminate |].
      destruct (fileTree !! _); [discriminate |].
      destruct (inherited _); [| discriminate].
      injection Hadd as <-. reflexivity.
    + apply IH.
      * intros dir Hdir.
        apply (add_file_keys h fileTree fileTree1 file dir Hadd) in Hdir
          as [Hold | (p & Hp & <-)]; [apply Hkeys, Hold |].
        destruct (listed_paths_single file) as [Hnone | (key & Hkey & Htruthy & Hsome)];
          [rewrite Hnone in Hp; apply elem_of_nil in Hp; destruct Hp |].
        rewrite Hsome in Hp. apply list_elem_of_singleton in Hp as ->.
        unfold add_file in Hadd. rewrite Hkey, Htruthy in Hadd. cbn [negb] in Hadd.
        destruct (fileTree !! dir_of (Str.remove_first PREFIX key)) eqn:Hold;
          [apply Hkeys; eauto |].
        destruct (inherited _); [discriminate | reflexivity].
      * apply Exists_app in Hbad as [Hfile | Hrest]; [| exact Hrest].
        exfalso.
        destruct (listed_paths_single file) as [Hnone | (key & Hkey & Htruthy & Hsome)];
          [rewrite Hnone in Hfile; apply Exists_nil in Hfile; exact Hfile |].
        rewrite Hsome in Hfile. apply Exists_cons in Hfile as [Hfile | Hnil];
          [| apply Exists_nil in Hnil; exact Hnil].
        unfold add_file in Hadd. rewrite Hkey, Htruthy in Hadd. cbn [negb] in Hadd.
        destruct (fileTree !! dir_of (Str.remove_first PREFIX key)) eqn:Hold.
        -- assert (inherited (dir_of (Str.remove_first PREFIX key)) = false)
             by (apply Hkeys; eauto).
           congruence.
        -- rewrite Hfile in Hadd. discriminate.
Qed.

(** X15. When a listed path lies in a directory named like a property of
    [Object.prototype] ("constructor", "toString", ...), no listing is
    rendered: the handler answers with [isError: true] and the message of
    the engine's [TypeError]. *)
Theorem list_prototype_directory (h : Host) (w : Collaborators)
  (output : ListObjectsV2Command.Output) :
  listObjectsV2 w
    {| ListObjectsV2Command.Bucket := BUCKET_NAME (env h);
       ListObjectsV2Command.Prefix := "smithy-docs/" |}
  = inr output →
  Exists (λ path, inherited (dir_of path) = true)
    (listed_paths (default [] (ListObjectsV2Command.Contents output))) →
  settled w (handleListTool h)
  = inr {| MCPToolResponse.content :=
             [{| ContentBlock.type := "text";
                 ContentBlock.text :=
                   "Error listing topics: "
                   +:+ TypeError_message (engine h) NotAFunction |}];
           MCPToolResponse.isError := Some true |}.
Proof.
  intros Hlist Hbad. expose_call. change PREFIX with "smithy-docs/".
  rewrite Hlist. cbn [run bind try_catch settle fst snd].
  set (files := default [] (ListObjectsV2Command.Contents output)) in *.
  rewrite (build_tree_fails h files ∅).
  - destruct files as [| file files']; [apply Exists_nil in Hbad; destruct Hbad |].
    reflexivity.
  - intros dir [fs Hfs]. rewrite lookup_empty in Hfs. discriminate.
  - exact Hbad.
Qed.

Lemma list_prototype_directory_witness :
  settled
    (lists ["smithy-docs/index.md"; "smithy-docs/constructor/traits.md"])
    (handleListTool Sample.host)
  = inr {| MCPToolResponse.content :=
             [{| ContentBlock.type := "text";
                 ContentBlock.text :=
                   "Error listing topics: fileTree[dir].push is not a function" |}];
           MCPToolResponse.isError := Some true |}.
Proof.
  refine (list_prototype_directory Sample.host
            (lists ["smithy-docs/index.md"; "smithy-docs/constructor/traits.md"])
            (listing ["smithy-docs/index.md"; "smithy-docs/constructor/traits.md"])
            eq_refl _).
  apply Exists_cons_tl, Exists_cons_hd. reflexivity.
Defined.

(** ** Listing, then reading *)

Lemma strip_leading_slashes_id (p : string) :
  (∀ rest, p ≠ "/" +:+ rest) → Str.strip_leading_slashes p = p.
Proof.
  intros Hp. destruct p as [| c p]; [reflexivity |]. cbn.
  destruct (Ascii.eqb c Str.slash) eqn:Hc; [| reflexivity].
  apply Ascii.eqb_eq in Hc as ->. destruct (Hp p). reflexivity.
Qed.



(** Without the condition the round trip fails: the object with the key
    [smithy-docs//x.md] is listed as [/x.md], which reads [smithy-docs/x.md]. *)
Example listed_path_leading_slash :
  listed_paths [{| ListObjectsV2Command.Key := Some "smithy-docs//x.md" |}]
  = ["/x.md"]
  ∧ read_key "/x.md" = "smithy-docs/x.md".
Proof. split; reflexivity. Qed.

(** ** Running programs in sequence *)

Lemma run_bind {A B : Type} (w : Collaborators) (p : Prog A) (f : A → Prog B) :
  run w (bind p f)
  = match run w p with
    | (sent1, inl e) => (sent1, inl e)
    | (sent1, inr a) => let (sent2, r) := run w (f a) in ((sent1 ++ sent2)%list, r)
    end.
Proof.
  induction p as [a | e | i k IH | i k IH | i k IH]; cbn [bind run].
  - destruct (run w (f a)). reflexivity.
  - reflexivity.
  - rewrite IH. destruct (run w (k (retrieve w i))) as [s [e | a]];
      [reflexivity | destruct (run w (f a)); reflexivity].
  - rewrite IH. destruct (run w (k (getObject w i))) as [s [e | a]];
      [reflexivity | destruct (run w (f a)); reflexivity].
  - rewrite IH. destruct (run w (k (listObjectsV2 w i))) as [s [e | a]];
      [reflexivity | destruct (run w (f a)); reflexivity].
Qed.

(** The three handlers resolve, whatever the collaborators answer. *)
Lemma handleSearchTool_resolves (h : Host) (w : Collaborators) (args : SearchArgs.t) :
  ∃ r, settled w (handleSearchTool h args) = inr r.
Proof.
  expose_call. destruct (retrieve w _) as [e | out]; cbn; [eauto |].
  destruct (Nat.eqb _ 0); eauto.
Qed.

Lemma handleReadTool_resolves (h : Host) (w : Collaborators) (args : ReadArgs.t) :
  ∃ r, settled w (handleReadTool h args) = inr r.
Proof.
  expose_call. destruct (getObject w _) as [e | [[[e | s] |]]]; cbn.
  - destruct (bool_decide _); eauto.
  - destruct (bool_decide _); eauto.
  - destruct (negb _); eauto.
  - eauto.
Qed.

Lemma handleListTool_resolves (h : Host) (w : Collaborators) :
  ∃ r, settled w (handleListTool h) = inr r.
Proof.
  expose_call. destruct (listObjectsV2 w _) as [e | out]; cbn; [eauto |].
  destruct (Nat.eqb _ 0); cbn; [eauto |].
  destruct (build_tree h _ _); cbn; eauto.
Qed.

Lemma run_then_respond (w : Collaborators) (p : Prog MCPToolResponse.t)
  (r : MCPToolResponse.t) :
  settled w p = inr r →
  run w (bind p (λ result, Ret (ok_response (json_of_response result))))
  = (sent w p, inr (ok_response (json_of_response r))).
Proof.
  unfold settled, sent. intros Hr. rewrite run_bind.
  destruct (run w p) as [s o]. cbn in Hr. subst o. cbn. rewrite app_nil_r.
  reflexivity.
Qed.

(** ** The Lambda handler: registered tools and other requests *)

(** X17. A call of a registered tool sends what the tool's handler sends
    and is answered with status 200 and, as body, the serialised response
    of the handler: also when that response has [isError: true]. *)
Theorem registered_tool_dispatched (h : Host) (w : Collaborators)
  (args : ToolCall.Arguments) :
  (∃ r, settled w (handleSearchTool h (search_args args)) = inr r
        ∧ run w (handler h
                   (tools_call
                      {| ToolCall.name := "search_smithy_docs";
                         ToolCall.arguments := args |}))
          = (sent w (handleSearchTool h (search_args args)),
             inr {| LambdaResponse.statusCode := 200;
                    LambdaResponse.headers := Some json_headers;
                    LambdaResponse.body := Json.stringify (json_of_response r) |}))
  ∧ (∃ r, settled w (handleReadTool h (read_args args)) = inr r
          ∧ run w (handler h
                     (tools_call
                        {| ToolCall.name := "read_smithy_doc";
                           ToolCall.arguments := args |}))
            = (sent w (handleReadTool h (read_args args)),
               inr {| LambdaResponse.statusCode := 200;
                      LambdaResponse.headers := Some json_headers;
                      LambdaResponse.body :=
                        Json.stringify (json_of_response r) |}))
  ∧ (∃ r, settled w (handleListTool h) = inr r
          ∧ run w (handler h
                     (tools_call
                        {| ToolCall.name := "list_smithy_topics";
                           ToolCall.arguments := args |}))
            = (sent w (handleListTool h),
               inr {| LambdaResponse.statusCode := 200;
                      LambdaResponse.headers := Some json_headers;
                      LambdaResponse.body :=
                        Json.stringify (json_of_response r) |})).
Proof.
  split; [| split].
  - destruct (handleSearchTool_resolves h w (search_args args)) as [r Hr].
    exists r. split; [exact Hr |]. apply (run_then_respond w _ r Hr).
  - destruct (handleReadTool_resolves h w (read_args args)) as [r Hr].
    exists r. split; [exact Hr |]. apply (run_then_respond w _ r Hr).
  - destruct (handleListTool_resolves h w) as [r Hr].
    exists r. split; [exact Hr |]. apply (run_then_respond w _ r Hr).
Qed.

(** A failed read is answered with status 200. *)
Example missing_document_status :
  settled Sample.store
    (handler Sample.host
       (tools_call
          {| ToolCall.name := "read_smithy_doc";
             ToolCall.arguments :=
               {| ToolCall.query := EmptyString;
                  ToolCall.max_results := None;
                  ToolCall.file_path := "missing.md" |} |}))
  = inr {| LambdaResponse.statusCode := 200;
           LambdaResponse.headers := Some json_headers;
           LambdaResponse.body :=
             "{" +:+ Str.dq +:+ "content" +:+ Str.dq +:+ ":[{"
             +:+ Str.dq +:+ "type" +:+ Str.dq +:+ ":"
             +:+ Str.dq +:+ "text" +:+ Str.dq +:+ ","
             +:+ Str.dq +:+ "text" +:+ Str.dq +:+ ":"
             +:+ Str.dq
             +:+ "Document not found: missing.md\n\nTip: Use search_smithy_docs to find available documents."
             +:+ Str.dq +:+ "}],"
             +:+ Str.dq +:+ "isError" +:+ Str.dq +:+ ":true}" |}.
Proof. vm_compute. reflexivity. Qed.

(** Every [tools/call] with [params] is answered. *)
Lemma tools_call_answered (h : Host) (w : Collaborators) (call : ToolCall.t) :
  ∃ response : LambdaResponse.t,
    settled w (handler h (tools_call call)) = inr response
    ∧ (LambdaResponse.statusCode response = 200
       ∨ LambdaResponse.statusCode response = 400).
Proof.
  destruct call as [name args]. unfold settled, handler, tools_call.
  cbn [McpRequest.method McpRequest.params ToolCall.name ToolCall.arguments].
  rewrite bool_decide_eq_false_2 by discriminate.
  rewrite bool_decide_eq_true_2 by reflexivity.
  destruct (String.eqb name "search_smithy_docs").
  { destruct (handleSearchTool_resolves h w (search_args args)) as [r Hr].
    rewrite (run_then_respond w _ r Hr). eexists. split; [reflexivity |].
    left. reflexivity. }
  destruct (String.eqb name "read_smithy_doc").
  { destruct (handleReadTool_resolves h w (read_args args)) as [r Hr].
    rewrite (run_then_respond w _ r Hr). eexists. split; [reflexivity |].
    left. reflexivity. }
  destruct (String.eqb name "list_smithy_topics").
  { destruct (handleListTool_resolves h w) as [r Hr].
    rewrite (run_then_respond w _ r Hr). eexists. split; [reflexivity |].
    left. reflexivity. }
  eexists. split; [reflexivity |]. right. reflexivity.
Qed.

(** A parsed object is answered unless it is a [tools/call] without
    [params]. *)
Lemma object_answered (h : Host) (w : Collaborators) (request : McpRequest.t) :
  ¬ (McpRequest.method request = Some "tools/call"
     ∧ McpRequest.params request = None) →
  ∃ response : LambdaResponse.t,
    settled w (handler h request) = inr response
    ∧ (LambdaResponse.statusCode response = 200
       ∨ LambdaResponse.statusCode response = 400).
Proof.
  destruct request as [method params].
  cbn [McpRequest.method McpRequest.params].
  intros Hnot. destruct (decide (method = Some "tools/call")) as [-> | Hne].
  - destruct params as [call |]; [apply tools_call_answered |].
    destruct Hnot. split; reflexivity.
  - unfold settled, handler. cbn [McpRequest.method McpRequest.params].
    rewrite (bool_decide_eq_false_2 (method = Some "tools/call")) by exact Hne.
    destruct (bool_decide (method = Some "tools/list"));
      [eexists; split; [reflexivity | left; reflexivity] |].
    destruct (bool_decide (method = Some "initialize"));
      eexists; (split; [reflexivity |]); [left | right]; reflexivity.
Qed.

(** X18. From the parsed body on, the Lambda handler throws in these
    cases only, each before anything is sent: the body parses to [null]
    (reading [method] fails), or the request is a [tools/call] whose
    [params] is missing or [null] (the destructuring fails).  Every other
    request is answered, with status 200 or 400. *)
Theorem handler_answers (h : Host) (w : Collaborators) (parsed : Parsed) :
  match parsed with
  | ParsedNull =>
      run w (handler_on h parsed)
      = ([], inl (ErrorObject "TypeError"
                    (TypeError_message (engine h) PropertyOfNull)))
  | ParsedObject request =>
      (McpRequest.method request = Some "tools/call" →
       McpRequest.params request = None →
       run w (handler_on h parsed)
       = ([], inl (ErrorObject "TypeError"
                     (TypeError_message (engine h) DestructureUndefined))))
      ∧ (¬ (McpRequest.method request = Some "tools/call"
            ∧ McpRequest.params request = None) →
         ∃ response : LambdaResponse.t,
           settled w (handler_on h parsed) = inr response
           ∧ (LambdaResponse.statusCode response = 200
              ∨ LambdaResponse.statusCode response = 400))
  | ParsedNullParams method =>
      (method = Some "tools/call" →
       run w (handler_on h parsed)
       = ([], inl (ErrorObject "TypeError"
                     (TypeError_message (engine h) DestructureNull))))
      ∧ (method ≠ Some "tools/call" →
         ∃ response : LambdaResponse.t,
           settled w (handler_on h parsed) = inr response
           ∧ (LambdaResponse.statusCode response = 200
              ∨ LambdaResponse.statusCode response = 400))
  end.
Proof.
  destruct parsed as [| request | method]; [reflexivity | |]; cbn [handler_on].
  - split.
    + destruct request as [method params].
      cbn [McpRequest.method McpRequest.params]. intros -> ->. reflexivity.
    + apply object_answered.
  - split.
    + intros ->. reflexivity.
    + intros Hne.
      rewrite (bool_decide_eq_false_2 (method = Some "tools/call")) by exact Hne.
      apply object_answered. cbn [McpRequest.method]. intros [Hcall _].
      exact (Hne Hcall).
Qed.

Lemma handler_answers_witness :
  (run Sample.store
     (handler_on Sample.host
        (ParsedObject
           {| McpRequest.method := Some "tools/call"; McpRequest.params := None |}))
   = ([], inl (ErrorObject "TypeError"
                 "Cannot destructure property 'name' of 'mcpRequest.params' as it is undefined.")))
  ∧ (run Sample.store
       (handler_on Sample.host (ParsedNullParams (Some "tools/call")))
     = ([], inl (ErrorObject "TypeError"
                   "Cannot destructure property 'name' of 'mcpRequest.params' as it is null.")))
  ∧ ∃ response : LambdaResponse.t,
      settled Sample.store
        (handler_on Sample.host (ParsedNullParams (Some "initialize")))
      = inr response
      ∧ (LambdaResponse.statusCode response = 200
         ∨ LambdaResponse.statusCode response = 400).
Proof.
  split; [| split].
  - exact (proj1 (handler_answers Sample.host Sample.store
                    (ParsedObject
                       {| McpRequest.method := Some "tools/call";
                          McpRequest.params := None |}))
             eq_refl eq_refl).
  - exact (proj1 (handler_answers Sample.host Sample.store
                    (ParsedNullParams (Some "tools/call")))
             eq_refl).
  - refine (proj2 (handler_answers Sample.host Sample.store
                     (ParsedNullParams (Some "initialize")))
              _).
    discriminate.
Defined.

(** The body [null], and the body [{}]. *)
Example handler_on_null_and_empty :
  run Sample.store (handler_on Sample.host ParsedNull)
  = ([], inl (ErrorObject "TypeError"
                "Cannot read properties of null (reading 'method')"))
  ∧ settled Sample.store
      (handler_on Sample.host
         (ParsedObject {| McpRequest.method := None; McpRequest.params := None |}))
    = inr {| LambdaResponse.statusCode := 400;
             LambdaResponse.headers := None;
             LambdaResponse.body :=
               "{" +:+ Str.dq +:+ "error" +:+ Str.dq +:+ ":"
               +:+ Str.dq +:+ "Invalid request" +:+ Str.dq +:+ "}" |}.
Proof. split; reflexivity. Qed.

(** X19. A request that is not a [tools/call] sends nothing to the
    knowledge base or the store; one whose method is none of
    [tools/list], [tools/call] and [initialize] (or is missing) is answered
    with status 400 and the body [{"error":"Invalid request"}]. *)
Theorem other_requests (h : Host) (w : Collaborators) (request : McpRequest.t) :
  McpRequest.method request ≠ Some "tools/call" →
  sent w (handler h request) = []
  ∧ (McpRequest.method request ≠ Some "tools/list" →
     McpRequest.method request ≠ Some "initialize" →
     settled w (handler h request)
     = inr {| LambdaResponse.statusCode := 400;
              LambdaResponse.headers := None;
              LambdaResponse.body :=
                "{" +:+ Str.dq +:+ "error" +:+ Str.dq +:+ ":"
                +:+ Str.dq +:+ "Invalid request" +:+ Str.dq +:+ "}" |}).
Proof.
  intros Hcall. unfold sent, settled, handler.
  rewrite (bool_decide_eq_false_2 _ Hcall). split.
  - destruct (bool_decide (_ = Some "tools/list")); [reflexivity |].
    destruct (bool_decide (_ = Some "initialize")); reflexivity.
  - intros Hlist Hinit.
    rewrite (bool_decide_eq_false_2 _ Hlist), (bool_decide_eq_false_2 _ Hinit).
    reflexivity.
Qed.

Lemma other_requests_witness :
  sent Sample.store
    (handler Sample.host
       {| McpRequest.method := None; McpRequest.params := None |})
  = []
  ∧ settled Sample.store
      (handler Sample.host
         {| McpRequest.method := None; McpRequest.params := None |})
    = inr {| LambdaResponse.statusCode := 400;
             LambdaResponse.headers := None;
             LambdaResponse.body :=
               "{" +:+ Str.dq +:+ "error" +:+ Str.dq +:+ ":"
               +:+ Str.dq +:+ "Invalid request" +:+ Str.dq +:+ "}" |}.
Proof.
  assert (None ≠ Some "tools/call") as Hcall by discriminate.
  destruct (other_requests Sample.host Sample.store
              {| McpRequest.method := None; McpRequest.params := None |} Hcall)
    as [Hsent Hanswer].
  split; [exact Hsent |]. apply Hanswer; discriminate.
Defined.

(** ** The registered tools of index.ts *)

(** X20. For a limit the input schema admits (from 1 to 10) the registered
    search tool sends the command [handleSearchTool] sends.  It has no
    [catch]: when the retrieval is rejected it rejects with the same
    error, where [handleSearchTool] resolves with an error response. *)
Theorem registered_search_agrees (h : Host) (w : Collaborators) (query : string)
  (x : number) :
  SFleb Num.one x = true →
  SFleb x ten = true →
  sent w (registered_search h query x)
  = sent w (handleSearchTool h
              {| SearchArgs.query := query; SearchArgs.max_results := Some x |})
  ∧ ∀ error : Thrown,
      retrieve w
        {| RetrieveCommand.knowledgeBaseId := KNOWLEDGE_BASE_ID (env h);
           RetrieveCommand.retrievalQuery_text := query;
           RetrieveCommand.numberOfResults := x |}
      = inl error →
      settled w (registered_search h query x) = inl error
      ∧ ∃ r, settled w
               (handleSearchTool h
                  {| SearchArgs.query := query;
                     SearchArgs.max_results := Some x |})
             = inr r
             ∧ MCPToolResponse.isError r = Some true.
Proof.
  intros Hlow Hhigh. split.
  - rewrite sent_handleSearchTool, effective_limit_in_range by assumption.
    unfold registered_search. expose_call.
    destruct (retrieve w _) as [e | out]; cbn; [reflexivity |].
    destruct (Nat.eqb _ 0); reflexivity.
  - intros error Hfail. split.
    + unfold registered_search. expose_call. rewrite Hfail. reflexivity.
    + expose_call. rewrite effective_limit_in_range by assumption.
      rewrite Hfail. eexists. split; reflexivity.
Qed.

Lemma registered_search_agrees_witness :
  sent Sample.down (registered_search Sample.host "traits" five)
  = sent Sample.down
      (handleSearchTool Sample.host
         {| SearchArgs.query := "traits"; SearchArgs.max_results := Some five |})
  ∧ ∀ error : Thrown,
      retrieve Sample.down
        {| RetrieveCommand.knowledgeBaseId := "KB0001";
           RetrieveCommand.retrievalQuery_text := "traits";
           RetrieveCommand.numberOfResults := five |}
      = inl error →
      settled Sample.down (registered_search Sample.host "traits" five)
      = inl error
      ∧ ∃ r, settled Sample.down
               (handleSearchTool Sample.host
                  {| SearchArgs.query := "traits";
                     SearchArgs.max_results := Some five |})
             = inr r
             ∧ MCPToolResponse.isError r = Some true.
Proof.
  exact (registered_search_agrees Sample.host Sample.down "traits" five
           eq_refl eq_refl).
Defined.

(** X21. The registered read tool fetches the key [handleReadTool]
    fetches.  A rejection of the fetch, or of reading the body, rejects
    it; every body that is read is answered without [isError], a missing
    body as the text "undefined" and an empty one as nothing after the
    heading. *)
Theorem registered_read_outcomes (h : Host) (w : Collaborators) (p : string) :
  sent w (registered_read h p)
  = sent w (handleReadTool h {| ReadArgs.file_path := p |})
  ∧ match getObject w
            {| GetObjectCommand.Bucket := BUCKET_NAME (env h);
               GetObjectCommand.Key := read_key p |}
    with
    | inl error => settled w (registered_read h p) = inl error
    | inr {| GetObjectCommand.Body := Some (inl error) |} =>
        settled w (registered_read h p) = inl error
    | inr {| GetObjectCommand.Body := Some (inr c) |} =>
        settled w (registered_read h p)
        = inr {| MCPToolResponse.content :=
                   [{| ContentBlock.type := "text";
                       ContentBlock.text :=
                         "# " +:+ p +:+ Str.nl +:+ Str.nl +:+ c |}];
                 MCPToolResponse.isError := None |}
    | inr {| GetObjectCommand.Body := None |} =>
        settled w (registered_read h p)
        = inr {| MCPToolResponse.content :=
                   [{| ContentBlock.type := "text";
                       ContentBlock.text :=
                         "# " +:+ p +:+ Str.nl +:+ Str.nl +:+ "undefined" |}];
                 MCPToolResponse.isError := None |}
    end.
Proof.
  split.
  - rewrite sent_handleReadTool. unfold registered_read. expose_call.
    change ("smithy-docs/" +:+ Str.strip_leading_slashes p) with (read_key p).
    destruct (getObject w _) as [e | [[[e | c] |]]]; reflexivity.
  - unfold registered_read. expose_call.
    change ("smithy-docs/" +:+ Str.strip_leading_slashes p) with (read_key p).
    destruct (getObject w _) as [e | [[[e | c] |]]]; reflexivity.
Qed.

Lemma strip_prefix_Some (pat s rest : string) :
  Str.strip_prefix pat s = Some rest → s = pat +:+ rest.
Proof.
  revert s. induction pat as [| a pat IH]; intros s; cbn [Str.strip_prefix].
  - intros [= <-]. reflexivity.
  - destruct s as [| c s]; [discriminate |].
    destruct (Ascii.eqb a c) eqn:Hac; [| discriminate].
    apply Ascii.eqb_eq in Hac as ->. intros Hrest.
    rewrite append_cons, <- (IH s Hrest). reflexivity.
Qed.

(** Removing the prefix leaves nothing only of the empty key and of the
    prefix itself. *)
Lemma remove_first_empty (pat key : string) :
  Str.remove_first pat key = EmptyString ↔ key = EmptyString ∨ key = pat.
Proof.
  split.
  - destruct key as [| c key]; [auto |]. cbn [Str.remove_first].
    destruct (Str.strip_prefix pat (String c key)) as [rest |] eqn:Hstrip;
      [| discriminate].
    intros ->. right. rewrite (strip_prefix_Some _ _ _ Hstrip).
    apply append_nil_r.
  - intros [-> | ->].
    + destruct pat; reflexivity.
    + assert (∀ p, Str.strip_prefix p p = Some EmptyString) as Hself.
      { induction p as [| a p IH]; [reflexivity |].
        cbn [Str.strip_prefix]. rewrite Ascii.eqb_refl. exact IH. }
      destruct pat as [| a pat]; [reflexivity |].
      cbn [Str.remove_first]. rewrite Hself. reflexivity.
Qed.

Lemma registered_files_keys (output : ListObjectsV2Command.Output) :
  registered_files output
  = map (Str.remove_first "smithy-docs/")
      (filter (λ key, key ≠ EmptyString ∧ key ≠ "smithy-docs/")
         (omap ListObjectsV2Command.Key
            (default [] (ListObjectsV2Command.Contents output)))).
Proof.
  unfold registered_files, filter_Boolean.
  induction (default [] (ListObjectsV2Command.Contents output))
    as [| object objects IH]; [reflexivity |].
  cbn [map omap list_omap]. fold (@omap list _ _ _ ListObjectsV2Command.Key objects).
  destruct (ListObjectsV2Command.Key object) as [key |]; cbn [option_map];
    [| exact IH].
  rewrite filter_cons.
  destruct (decide (key ≠ EmptyString ∧ key ≠ "smithy-docs/")) as [[Hkey Hprefix] | Hnot].
  - destruct (Str.remove_first "smithy-docs/" key) eqn:Hrest.
    + apply remove_first_empty in Hrest as [-> | ->]; congruence.
    + cbn [Str.truthy map]. rewrite <- Hrest. f_equal. exact IH.
  - assert (Str.remove_first "smithy-docs/" key = EmptyString) as ->.
    { apply remove_first_empty.
      destruct (decide (key = EmptyString)); [auto |].
      destruct (decide (key = "smithy-docs/")); [auto |].
      destruct Hnot. split; assumption. }
    exact IH.
Qed.

(** X22. The registered list tool prints one line per listed object whose
    key is present, is not empty and is not the prefix alone: the key
    without the prefix, in the order of the listing.  The total it
    reports is the number of these lines (objects left out are not
    counted). *)
Theorem registered_list_total (h : Host) (w : Collaborators)
  (output : ListObjectsV2Command.Output) :
  listObjectsV2 w
    {| ListObjectsV2Command.Bucket := BUCKET_NAME (env h);
       ListObjectsV2Command.Prefix := "smithy-docs/" |}
  = inr output →
  settled w (registered_list h)
  = inr {| MCPToolResponse.content :=
             [{| ContentBlock.type := "text";
                 ContentBlock.text :=
                   "# Smithy Documentation" +:+ Str.nl +:+ Str.nl
                   +:+ "Total: "
                   +:+ Str.of_nat
                         (length
                            (filter
                               (λ key, key ≠ EmptyString ∧ key ≠ "smithy-docs/")
                               (omap ListObjectsV2Command.Key
                                  (default []
                                     (ListObjectsV2Command.Contents output)))))
                   +:+ " files" +:+ Str.nl +:+ Str.nl
                   +:+ foldr
                         (λ key rest,
                            "- " +:+ Str.remove_first "smithy-docs/" key
                            +:+ Str.nl +:+ rest)
                         EmptyString
                         (filter
                            (λ key, key ≠ EmptyString ∧ key ≠ "smithy-docs/")
                            (omap ListObjectsV2Command.Key
                               (default []
                                  (ListObjectsV2Command.Contents output)))) |}];
           MCPToolResponse.isError := None |}.
Proof.
  intros Hlist. unfold registered_list. expose_call. rewrite Hlist.
  cbn [run bind try_catch settle fst snd].
  rewrite (foldl_append_map (λ f, "- " +:+ f +:+ Str.nl)).
  rewrite registered_files_keys, length_map.
  unfold text_block. do 4 f_equal. rewrite !append_assoc. do 8 f_equal.
  induction (filter _ _) as [| key keys IH]; cbn [map foldr]; [reflexivity |].
  rewrite IH, !append_assoc. reflexivity.
Qed.

Lemma registered_list_total_witness :
  settled (lists ["smithy-docs/"; "smithy-docs/spec/idl.md"; "smithy-docs/index.md"])
    (registered_list Sample.host)
  = inr {| MCPToolResponse.content :=
             [{| ContentBlock.type := "text";
                 ContentBlock.text :=
                   "# Smithy Documentation" +:+ Str.nl +:+ Str.nl
                   +:+ "Total: 2 files" +:+ Str.nl +:+ Str.nl
                   +:+ "- spec/idl.md" +:+ Str.nl
                   +:+ "- index.md" +:+ Str.nl |}];
           MCPToolResponse.isError := None |}.
Proof.
  exact (registered_list_total Sample.host
           (lists ["smithy-docs/"; "smithy-docs/spec/idl.md"; "smithy-docs/index.md"])
           (listing ["smithy-docs/"; "smithy-docs/spec/idl.md";
                     "smithy-docs/index.md"])
           eq_refl).
Defined.

(** The store lists a key that is only the prefix: the registered tool
    leaves it out and counts one file. *)
Example registered_list_prefix_object :
  settled (lists ["smithy-docs/"; "smithy-docs/index.md"])
    (registered_list Sample.host)
  = inr {| MCPToolResponse.content :=
             [{| ContentBlock.type := "text";
                 ContentBlock.text :=
                   "# Smithy Documentation" +:+ Str.nl +:+ Str.nl
                   +:+ "Total: 1 files" +:+ Str.nl +:+ Str.nl
                   +:+ "- index.md" +:+ Str.nl |}];
           MCPToolResponse.isError := None |}.
Proof. vm_compute. reflexivity. Qed.

(** ** Ingestion: from conversion to reading *)

Lemma length_append (s t : string) :
  String.length (s +:+ t) = String.length s + String.length t.
Proof.
  induction s as [| c s IH]; [reflexivity |].
  rewrite append_cons. cbn. rewrite IH. reflexivity.
Qed.

Lemma rst_to_md_suffix (base : string) :
  Rst.rst_to_md (base +:+ ".rst") = base +:+ ".md".
Proof.
  induction base as [| c base IH]; [reflexivity |].
  rewrite !append_cons. cbn [Rst.rst_to_md].
  destruct (String.eqb (String c (base +:+ ".rst")) ".rst") eqn:Heq.
  - apply String.eqb_eq in Heq. apply (f_equal String.length) in Heq.
    cbn [String.length] in Heq. rewrite length_append in Heq. cbn in Heq. lia.
  - rewrite IH. reflexivity.
Qed.

(** X24. From conversion to reading: a file whose path relative to the
    documentation directory is [base.rst] is converted with the relative
    path [base.md], uploaded by [main] under the key
    [smithy-docs/base.md], the [source] of its front matter, and that is
    the key the read handler fetches for the path [base.md]. *)
Theorem converted_file_served (ih : IngestHost) (h : Host) (w : Collaborators)
  (docsPath rstFile stdout base bucketName : string) :
  path_relative ih docsPath rstFile = base +:+ ".rst" →
  (∀ rest, base ≠ "/" +:+ rest) →
  MarkdownFile.relativePath (converted ih docsPath rstFile stdout)
  = base +:+ ".md"
  ∧ PutObjectCommand.Key
      (upload_command bucketName DOCS_PREFIX
         (converted ih docsPath rstFile stdout))
    = "smithy-docs/" +:+ base +:+ ".md"
  ∧ MarkdownFile.content (converted ih docsPath rstFile stdout)
    = matter_stringify ih stdout
        {| FrontMatter.title := title_of ih rstFile stdout;
           FrontMatter.source := "smithy-docs/" +:+ base +:+ ".md";
           FrontMatter.original_format := "rst" |}
  ∧ sent w (handleReadTool h {| ReadArgs.file_path := base +:+ ".md" |})
    = [SentGetObject
         {| GetObjectCommand.Bucket := BUCKET_NAME (env h);
            GetObjectCommand.Key := "smithy-docs/" +:+ base +:+ ".md" |}].
Proof.
  intros Hrel Hbase.
  assert (MarkdownFile.relativePath (converted ih docsPath rstFile stdout)
          = base +:+ ".md") as Hpath.
  { unfold converted. cbn [MarkdownFile.relativePath].
    rewrite Hrel. apply rst_to_md_suffix. }
  split; [exact Hpath |]. split; [| split].
  - unfold upload_command. cbn [PutObjectCommand.Key]. rewrite Hpath. reflexivity.
  - unfold converted. cbn [MarkdownFile.content].
    rewrite Hrel, rst_to_md_suffix. reflexivity.
  - idtac.
  rewrite sent_handleReadTool. unfold read_command, read_key, cleanPath.
  cbn [ReadArgs.file_path]. rewrite strip_leading_slashes_id; [reflexivity |].
  intros rest Heq. destruct base as [| c base]; [discriminate |].
  rewrite append_cons in Heq. injection Heq as -> _. destruct (Hbase base).
  reflexivity.
Qed.

Lemma converted_file_served_witness :
  MarkdownFile.relativePath
    (converted workstation "/docs" "/docs/spec/idl.rst" "# IDL")
  = "spec/idl.md"
  ∧ PutObjectCommand.Key
      (upload_command "docs-bucket" DOCS_PREFIX
         (converted workstation "/docs" "/docs/spec/idl.rst" "# IDL"))
    = "smithy-docs/spec/idl.md"
  ∧ MarkdownFile.content
      (converted workstation "/docs" "/docs/spec/idl.rst" "# IDL")
    = matter_stringify workstation "# IDL"
        {| FrontMatter.title := "IDL";
           FrontMatter.source := "smithy-docs/spec/idl.md";
           FrontMatter.original_format := "rst" |}
  ∧ sent Sample.store
      (handleReadTool Sample.host {| ReadArgs.file_path := "spec/idl.md" |})
    = [SentGetObject
         {| GetObjectCommand.Bucket := "docs-bucket";
            GetObjectCommand.Key := "smithy-docs/spec/idl.md" |}].
Proof.
  refine (converted_file_served workstation Sample.host Sample.store
            "/docs" "/docs/spec/idl.rst" "# IDL" "spec/idl" "docs-bucket"
            eq_refl _).
  intros rest. discriminate.
Defined.

(** ** Ingestion: the conversion loop *)

Lemma convert_loop (ih : IngestHost) (docsPath : string) (rstFiles : list string) :
  ∀ markdownFiles : list MarkdownFile.t,
    foldl
      (λ markdownFiles rstFile,
         match execAsync ih (pandoc_command rstFile) with
         | inr stdout =>
             (markdownFiles ++ [converted ih docsPath rstFile stdout])%list
         | inl _ => markdownFiles
         end)
      markdownFiles rstFiles
    = (markdownFiles
       ++ omap (λ rstFile,
                  match execAsync ih (pandoc_command rstFile) with
                  | inr stdout => Some (converted ih docsPath rstFile stdout)
                  | inl _ => None
                  end)
            rstFiles)%list.
Proof.
  induction rstFiles as [| rstFile rstFiles IH]; intros markdownFiles.
  - cbn. rewrite app_nil_r. reflexivity.
  - cbn [foldl]. rewrite IH. cbn.
    destruct (execAsync ih (pandoc_command rstFile)); [reflexivity |].
    cbn. rewrite <- app_assoc. reflexivity.
Qed.

(** X25. Without pandoc nothing is converted: the conversion rejects with
    the error that asks for pandoc.  With pandoc, a file whose conversion
    fails is left out and the others are converted all the same: the
    result has the files pandoc converted, in the order of the glob, each
    built from what pandoc printed for it. *)
Theorem convert_skips_failures (ih : IngestHost) (docsPath : string)
  (rstFiles : list string) :
  glob ih "**/*.rst" docsPath = inr rstFiles →
  match execAsync ih "pandoc --version" with
  | inl _ =>
      convertRstToMarkdown ih docsPath
      = inl (ErrorObject "Error"
               "Pandoc is required. Install: brew install pandoc (macOS) or apt-get install pandoc (Linux)")
  | inr _ =>
      ∃ markdownFiles : list MarkdownFile.t,
        convertRstToMarkdown ih docsPath = inr markdownFiles
        ∧ map MarkdownFile.path markdownFiles
          = List.filter (pandoc_succeeds ih) rstFiles
        ∧ Forall (λ file,
                    ∃ stdout,
                      execAsync ih (pandoc_command (MarkdownFile.path file))
                      = inr stdout
                      ∧ file = converted ih docsPath (MarkdownFile.path file) stdout)
            markdownFiles
  end.
Proof.
  intros Hglob. unfold convertRstToMarkdown. rewrite Hglob.
  destruct (execAsync ih "pandoc --version") as [e | version]; [reflexivity |].
  eexists. split; [reflexivity |]. rewrite convert_loop. cbn [app].
  clear Hglob. split.
  - induction rstFiles as [| rstFile rstFiles IH]; [reflexivity |].
    cbn. unfold pandoc_succeeds at 1.
    destruct (execAsync ih (pandoc_command rstFile)); cbn; [exact IH |].
    f_equal. exact IH.
  - apply Forall_forall. intros file Hfile.
    apply list_elem_of_omap in Hfile as (rstFile & _ & Hfile).
    destruct (execAsync ih (pandoc_command rstFile)) as [e | stdout] eqn:Hexec;
      [discriminate |].
    injection Hfile as <-. exists stdout. split; [exact Hexec | reflexivity].
Qed.

Lemma convert_skips_failures_witness :
  ∃ markdownFiles : list MarkdownFile.t,
    convertRstToMarkdown workstation "/docs" = inr markdownFiles
    ∧ map MarkdownFile.path markdownFiles
      = ["/docs/index.rst"; "/docs/spec/idl.rst"]
    ∧ Forall (λ file,
                ∃ stdout,
                  execAsync workstation (pandoc_command (MarkdownFile.path file))
                  = inr stdout
                  ∧ file = converted workstation "/docs" (MarkdownFile.path file) stdout)
        markdownFiles.
Proof.
  exact (convert_skips_failures workstation "/docs"
           ["/docs/index.rst"; "/docs/broken.rst"; "/docs/spec/idl.rst"] eq_refl).
Defined.

(** ** Ingestion: the title *)

Lemma drop_hashes_split (s : string) :
  ∃ hashes, s = hashes +:+ Rst.drop_hashes s
            ∧ all_of (λ c, Ascii.eqb c Rst.hash) hashes = true.
Proof.
  induction s as [| c s (hashes & Hs & Hall)].
  - exists EmptyString. split; reflexivity.
  - cbn [Rst.drop_hashes]. destruct (Ascii.eqb c Rst.hash) eqn:Hc.
    + exists (String c hashes). rewrite append_cons, <- Hs.
      split; [reflexivity |]. cbn. rewrite Hc, Hall. reflexivity.
    + exists EmptyString. split; reflexivity.
Qed.

Lemma trim_start_split (s : string) :
  ∃ spaces, s = spaces +:+ Rst.trim_start s
            ∧ all_of Rst.is_space spaces = true.
Proof.
  induction s as [| c s (spaces & Hs & Hall)].
  - exists EmptyString. split; reflexivity.
  - cbn [Rst.trim_start]. destruct (Rst.is_space c) eqn:Hc.
    + exists (String c spaces). rewrite append_cons, <- Hs.
      split; [reflexivity |]. cbn [all_of]. rewrite Hc, Hall. reflexivity.
    + exists EmptyString. split; reflexivity.
Qed.

Lemma trim_start_first (s : string) (c : ascii) :
  first_char (Rst.trim_start s) = Some c → Rst.is_space c = false.
Proof.
  induction s as [| a s IH]; [discriminate |].
  cbn [Rst.trim_start]. destruct (Rst.is_space a) eqn:Ha; [exact IH |].
  intros [= <-]. exact Ha.
Qed.

Lemma trim_end_split (s : string) :
  ∃ spaces, s = Rst.trim_end s +:+ spaces
            ∧ all_of Rst.is_space spaces = true.
Proof.
  induction s as [| c s (spaces & Hs & Hall)].
  - exists EmptyString. split; reflexivity.
  - cbn [Rst.trim_end]. destruct (Rst.trim_end s) as [| a t] eqn:Htrim.
    + destruct (Rst.is_space c) eqn:Hc.
      * exists (String c spaces). rewrite append_nil_l in *. subst s.
        split; [reflexivity |]. cbn [all_of]. rewrite Hc, Hall. reflexivity.
      * exists spaces. rewrite append_cons, <- Hs. split; [reflexivity | exact Hall].
    + exists spaces. rewrite append_cons, <- Hs. split; [reflexivity | exact Hall].
Qed.

Lemma trim_end_last (s : string) (c : ascii) :
  last_char (Rst.trim_end s) = Some c → Rst.is_space c = false.
Proof.
  induction s as [| a s IH]; [discriminate |].
  cbn [Rst.trim_end]. destruct (Rst.trim_end s) as [| b t] eqn:Htrim.
  - destruct (Rst.is_space a) eqn:Ha; [discriminate |].
    intros [= <-]. exact Ha.
  - exact IH.
Qed.

Lemma trim_end_first (s : string) (c : ascii) :
  first_char (Rst.trim_end s) = Some c → first_char s = Some c.
Proof.
  destruct s as [| a s]; [discriminate |]. cbn [Rst.trim_end].
  destruct (Rst.trim_end s); [destruct (Rst.is_space a); [discriminate |] |];
    intros [= <-]; reflexivity.
Qed.

Lemma find_first_heading (before after : list string) (heading : string) :
  Forall (λ l, Rst.is_heading l = false) before →
  Rst.is_heading heading = true →
  List.find Rst.is_heading (before ++ heading :: after) = Some heading.
Proof.
  intros Hbefore Hheading. induction Hbefore as [| l before Hl _ IH]; cbn.
  - rewrite Hheading. reflexivity.
  - rewrite Hl. exact IH.
Qed.

Lemma find_no_heading (lines : list string) :
  Forall (λ l, Rst.is_heading l = false) lines →
  List.find Rst.is_heading lines = None.
Proof.
  intros Hlines. induction Hlines as [| l lines Hl _ IH]; cbn; [reflexivity |].
  rewrite Hl. exact IH.
Qed.

Lemma drop_hashes_first (s : string) :
  first_char (Rst.drop_hashes s) ≠ Some Rst.hash.
Proof.
  induction s as [| c s IH]; [discriminate |].
  cbn [Rst.drop_hashes]. destruct (Ascii.eqb c Rst.hash) eqn:Hc; [exact IH |].
  intros [= ->]. rewrite Ascii.eqb_refl in Hc. discriminate.
Qed.

(** X26. The title is taken from the first line of the output that begins
    with a hash.  That line is its whole run of hashes at the start (at
    least one, and what follows the run does not begin with a hash),
    white space, the title and white space, and the title neither begins
    nor ends with white space (it is empty when the line has nothing
    else).  Only when no line begins with a hash is the title the base
    name of the file. *)
Theorem title_of_output (ih : IngestHost) (rstFile stdout : string) :
  (Forall (λ l, Rst.is_heading l = false) (Str.split (ascii_of_nat 10) stdout) →
   title_of ih rstFile stdout = path_basename ih rstFile ".rst")
  ∧ ∀ (before after : list string) (heading : string),
      Str.split (ascii_of_nat 10) stdout = (before ++ heading :: after)%list →
      Forall (λ l, Rst.is_heading l = false) before →
      Rst.is_heading heading = true →
      ∃ hashes spaces trailing : string,
        heading = hashes +:+ spaces +:+ title_of ih rstFile stdout +:+ trailing
        ∧ hashes ≠ EmptyString
        ∧ all_of (λ c, Ascii.eqb c Rst.hash) hashes = true
        ∧ first_char (spaces +:+ title_of ih rstFile stdout +:+ trailing)
          ≠ Some Rst.hash
        ∧ all_of Rst.is_space spaces = true
        ∧ all_of Rst.is_space trailing = true
        ∧ (∀ c, first_char (title_of ih rstFile stdout) = Some c →
                Rst.is_space c = false)
        ∧ (∀ c, last_char (title_of ih rstFile stdout) = Some c →
                Rst.is_space c = false).
Proof.
  unfold title_of. split.
  - intros Hnone. rewrite (find_no_heading _ Hnone). reflexivity.
  - intros before after heading -> Hbefore Hheading.
    rewrite (find_first_heading before after heading Hbefore Hheading).
    assert (Rst.strip_heading_marker heading
            = Rst.trim_start (Rst.drop_hashes heading)) as ->.
    { destruct heading as [| c heading]; [discriminate |].
      cbn in Hheading. unfold Rst.strip_heading_marker. rewrite Hheading.
      reflexivity. }
    unfold Rst.trim.
    set (rest := Rst.trim_start (Rst.trim_start (Rst.drop_hashes heading))).
    destruct (drop_hashes_split heading) as (hashes & Hh & Hhashes).
    destruct (trim_start_split (Rst.drop_hashes heading)) as (sp1 & Hs1 & Hsp1).
    destruct (trim_start_split (Rst.trim_start (Rst.drop_hashes heading)))
      as (sp2 & Hs2 & Hsp2).
    fold rest in Hs2.
    destruct (trim_end_split rest) as (trailing & Ht & Htrailing).
    assert (sp2 = EmptyString) as ->.
    { destruct sp2 as [| c sp2]; [reflexivity |]. exfalso.
      rewrite append_cons in Hs2. cbn [all_of] in Hsp2.
      apply andb_prop in Hsp2 as [Hc _].
      pose proof (trim_start_first (Rst.drop_hashes heading) c) as Hfirst.
      rewrite Hs2 in Hfirst. rewrite (Hfirst eq_refl) in Hc. discriminate. }
    rewrite append_nil_l in Hs2.
    assert (Rst.drop_hashes heading = sp1 +:+ Rst.trim_end rest +:+ trailing)
      as Hafter.
    { rewrite Hs1 at 1. rewrite Hs2 at 1. rewrite Ht at 1. reflexivity. }
    exists hashes, sp1, trailing.
    split; [rewrite Hh at 1; rewrite Hafter; reflexivity |].
    split.
    { intros ->. rewrite append_nil_l in Hh.
      apply (drop_hashes_first heading). rewrite <- Hh.
      destruct heading as [| c heading]; [discriminate |].
      cbn in Hheading. apply Ascii.eqb_eq in Hheading as ->. reflexivity. }
    split; [exact Hhashes |].
    split; [rewrite <- Hafter; apply drop_hashes_first |].
    split; [exact Hsp1 |]. split; [exact Htrailing |]. split.
    + intros c Hc. apply trim_end_first in Hc. unfold rest in Hc.
      apply (trim_start_first _ c Hc).
    + intros c Hc. apply (trim_end_last rest c Hc).
Qed.

Lemma title_of_output_witness :
  title_of workstation "/docs/index.rst" "plain text" = "index"
  ∧ ∃ hashes spaces trailing : string,
      "##  The IDL  "
      = hashes +:+ spaces
        +:+ title_of workstation "/docs/spec/idl.rst"
              ("Intro" +:+ Str.nl +:+ "##  The IDL  " +:+ Str.nl +:+ "# Next")
        +:+ trailing
      ∧ hashes ≠ EmptyString
      ∧ all_of (λ c, Ascii.eqb c Rst.hash) hashes = true
      ∧ first_char
          (spaces
           +:+ title_of workstation "/docs/spec/idl.rst"
                 ("Intro" +:+ Str.nl +:+ "##  The IDL  " +:+ Str.nl +:+ "# Next")
           +:+ trailing)
        ≠ Some Rst.hash
      ∧ all_of Rst.is_space spaces = true
      ∧ all_of Rst.is_space trailing = true
      ∧ (∀ c, first_char
                (title_of workstation "/docs/spec/idl.rst"
                   ("Intro" +:+ Str.nl +:+ "##  The IDL  " +:+ Str.nl +:+ "# Next"))
              = Some c →
              Rst.is_space c = false)
      ∧ (∀ c, last_char
                (title_of workstation "/docs/spec/idl.rst"
                   ("Intro" +:+ Str.nl +:+ "##  The IDL  " +:+ Str.nl +:+ "# Next"))
              = Some c →
              Rst.is_space c = false).
Proof.
  split.
  - refine (proj1 (title_of_output workstation "/docs/index.rst" "plain text") _).
    repeat constructor.
  - refine (proj2 (title_of_output workstation "/docs/spec/idl.rst"
                     ("Intro" +:+ Str.nl +:+ "##  The IDL  " +:+ Str.nl +:+ "# Next"))
              ["Intro"] ["# Next"] "##  The IDL  " eq_refl _ eq_refl).
    repeat constructor.
Defined.

(** A heading with white space around the title, and one without title. *)
Example title_of_headings :
  title_of workstation "/docs/spec/idl.rst"
    ("Intro" +:+ Str.nl +:+ "##  The IDL  " +:+ Str.nl +:+ "# Next")
  = "The IDL"
  ∧ title_of workstation "/docs/spec/idl.rst" ("###" +:+ Str.nl +:+ "text")
    = EmptyString.
Proof. split; reflexivity. Qed.
